(** * NucloGem: the Nuclei + Gemini scanner and reporter script

    A shallow embedding of [src/code.py].  The script checks that the
    scanner is installed, runs one scan as a subprocess, reads the scan
    file, sends it to a remote text model, and writes the answer as
    Markdown which [pandoc] turns into a PDF.

    Python [str] values are byte strings here (their UTF-8 encoding); the
    file system is a finite map from paths to nodes; the collaborators the
    script shells out to are fields of a [World] record; and the script's
    functions are computations in a small state and exception monad. *)

From Stdlib Require Import ZArith Ascii.
From Stdlib Require String.
From stdpp Require Import base option list strings pretty gmap.

Local Open Scope Z_scope.

(** ** Strings *)

Module Str.

(** [s.startswith(p)]. *)
Fixpoint startswith (p s : string) : bool :=
  match p, s with
  | EmptyString, _ => true
  | String a p', String b s' => if Ascii.eqb a b then startswith p' s' else false
  | String _ _, EmptyString => false
  end.

(** [needle in s] for two [str] values: a substring test. *)
Fixpoint contains (needle s : string) : bool :=
  startswith needle s ||
  match s with
  | EmptyString => false
  | String _ s' => contains needle s'
  end.

Fixpoint drop (n : nat) (s : string) : string :=
  match n, s with
  | O, _ => s
  | S n', String _ s' => drop n' s'
  | S _, EmptyString => EmptyString
  end.

Fixpoint rev_onto (acc s : string) : string :=
  match s with
  | EmptyString => acc
  | String c s' => rev_onto (String c acc) s'
  end.

Definition rev (s : string) : string := rev_onto EmptyString s.

Definition byte (n : nat) : ascii := ascii_of_nat n.
Definition bytes (l : list nat) : string :=
  foldr (fun n s => String (byte n) s) EmptyString l.

(** The characters [str.isspace] accepts, each as its UTF-8 encoding:
    U+0009..U+000D, U+001C..U+001F, U+0020, U+0085, U+00A0, U+1680,
    U+2000..U+200A, U+2028, U+2029, U+202F, U+205F and U+3000. *)
Definition whitespace : list string :=
  map bytes
    [ [9]; [10]; [11]; [12]; [13]; [28]; [29]; [30]; [31]; [32];
      [194; 133]; [194; 160]; [225; 154; 128];
      [226; 128; 128]; [226; 128; 129]; [226; 128; 130]; [226; 128; 131];
      [226; 128; 132]; [226; 128; 133]; [226; 128; 134]; [226; 128; 135];
      [226; 128; 136]; [226; 128; 137]; [226; 128; 138];
      [226; 128; 168]; [226; 128; 169]; [226; 128; 175];
      [226; 129; 159]; [227; 128; 128] ]%nat.

(** How many leading bytes of [s] form one character of [chars]. *)
Fixpoint leading (chars : list string) (s : string) : option nat :=
  match chars with
  | [] => None
  | c :: chars' =>
      if startswith c s then Some (String.length c) else leading chars' s
  end.

Fixpoint lstrip_chars (fuel : nat) (chars : list string) (s : string) : string :=
  match fuel with
  | O => s
  | S fuel' =>
      match leading chars s with
      | Some n => lstrip_chars fuel' chars (drop n s)
      | None => s
      end
  end.

(** [s.lstrip()]: every step removes at least one byte, so the length of
    [s] is enough fuel. *)
Definition lstrip (s : string) : string :=
  lstrip_chars (String.length s) whitespace s.

(** [s.rstrip()]: the same from the other end, on the mirrored string
    with the mirrored encodings. *)
Definition rstrip (s : string) : string :=
  rev (lstrip_chars (String.length s) (map rev whitespace) (rev s)).

(** [s.strip()]. *)
Definition strip (s : string) : string := rstrip (lstrip s).

(** [s.rstrip('/')]. *)
Definition rstrip_slash (s : string) : string :=
  rev (lstrip_chars (String.length s) ["/"] (rev s)).

End Str.

(** ** Reading text *)

Module Codec.

Definition between (lo hi : nat) (c : ascii) : bool :=
  let n := nat_of_ascii c in (lo <=? n)%nat && (n <=? hi)%nat.

Definition continuation (c : ascii) : bool := between 128 191 c.

(** The first two bytes of a character of three bytes: no overlong form
    and no surrogate. *)
Definition three (a b : ascii) : bool :=
  between 224 224 a && between 160 191 b
  || between 225 236 a && continuation b
  || between 237 237 a && between 128 159 b
  || between 238 239 a && continuation b.

(** The first two bytes of a character of four bytes, up to U+10FFFF. *)
Definition four (a b : ascii) : bool :=
  between 240 240 a && between 144 191 b
  || between 241 243 a && continuation b
  || between 244 244 a && between 128 143 b.

(** The bytes are UTF-8 as the strict [utf-8] codec takes it. *)
Fixpoint utf8 (s : string) : bool :=
  match s with
  | EmptyString => true
  | String a s1 =>
      if between 0 127 a then utf8 s1
      else
        match s1 with
        | EmptyString => false
        | String b s2 =>
            if between 194 223 a then continuation b && utf8 s2
            else
              match s2 with
              | EmptyString => false
              | String c s3 =>
                  if three a b then continuation c && utf8 s3
                  else
                    match s3 with
                    | EmptyString => false
                    | String d s4 =>
                        four a b && continuation c && continuation d && utf8 s4
                    end
              end
        end
  end.

Definition LF : ascii := Str.byte 10.
Definition CR : ascii := Str.byte 13.

(** What text mode does to the ends of lines on reading: a carriage
    return, with the line feed after it if there is one, becomes a line
    feed. *)
Fixpoint universal_newlines (s : string) : string :=
  match s with
  | EmptyString => EmptyString
  | String c s' =>
      if Ascii.eqb c CR
      then
        match s' with
        | String d s'' =>
            if Ascii.eqb d LF
            then String LF (universal_newlines s'')
            else String LF (universal_newlines s')
        | EmptyString => String LF EmptyString
        end
      else String c (universal_newlines s')
  end.

(** The text of a file opened with [open(p, 'r')] where the encoding of
    the locale is UTF-8, as on the system the script is written for;
    nothing when the bytes do not decode. *)
Definition decode (bytes : string) : option string :=
  if utf8 bytes then Some (universal_newlines bytes) else None.

End Codec.

(** ** Exceptions, outcomes and the monad of the script *)

(** The exception classes the script can meet.  All four are subclasses of
    [Exception]; [OSError] stands for its subclasses too
    ([FileNotFoundError], [IsADirectoryError], ...), [OtherException] for
    whatever the remote model's client raises. *)
Inductive exn_class : Set :=
| CalledProcessError
| TimeoutExpired
| OSError
| OtherException.

(** An exception with the text [str(e)] gives. *)
Record exn : Set := Exn { class_of : exn_class; str : string }.

(** [except:] and [except Exception:] catch every exception of the model. *)
Definition is_Exception (e : exn) : bool := true.

(** [except subprocess.CalledProcessError:]. *)
Definition is_CalledProcessError (e : exn) : bool :=
  match class_of e with CalledProcessError => true | _ => false end.

(** How a computation ends: with a value, with an exception that travels
    up, with [exit(code)], or never (it waits for a process that does not
    finish). *)
Inductive outcome (A : Type) : Type :=
| Return (a : A)
| Raise (e : exn)
| SystemExit (code : Z)
| Hang.
Arguments Return {A} a.
Arguments Raise {A} e.
Arguments SystemExit {A} code.
Arguments Hang {A}.

(** A node of the file system. *)
Inductive node : Set :=
| File (content : string)
| Dir.

(** A call to a collaborator: a subprocess with the [timeout=] argument of
    [subprocess.run], or a prompt sent to the remote model. *)
Inductive call : Set :=
| Spawn (cmd : list string) (timeout : option Z)
| GenerateContent (prompt : string).

(** What the script can change: the files, what it printed (one entry per
    [print]), and the collaborators it called, oldest first. *)
Record state : Type := State {
  fs : gmap string node;
  stdout : list string;
  calls : list call
}.

Definition M (A : Type) : Type := state -> state * outcome A.

Definition ret {A} (a : A) : M A := fun st => (st, Return a).

Definition bind {A B} (m : M A) (k : A -> M B) : M B :=
  fun st =>
    match m st with
    | (st', Return a) => k a st'
    | (st', Raise e) => (st', Raise e)
    | (st', SystemExit code) => (st', SystemExit code)
    | (st', Hang) => (st', Hang)
    end.

Notation "'let*' x := m 'in' k" := (bind m (fun x => k))
  (at level 10, x name, m at level 100, k at level 200).
Notation "m ;; k" := (bind m (fun _ => k))
  (at level 100, k at level 200, right associativity).

(** [try: body except <classes> as e: handler(e)].  Only raised exceptions
    are caught; no [try] body of the script calls [exit]. *)
Definition try_except {A} (body : M A) (catches : exn -> bool)
    (handler : exn -> M A) : M A :=
  fun st =>
    match body st with
    | (st', Raise e) => if catches e then handler e st' else (st', Raise e)
    | r => r
    end.

(** [exit(code)]. *)
Definition exit {A} (code : Z) : M A := fun st => (st, SystemExit code).

Definition raise {A} (e : exn) : M A := fun st => (st, Raise e).

(** [print(s)]. *)
Definition print (s : string) : M unit :=
  fun st => (State (fs st) (stdout st ++ [s]) (calls st), Return tt).

Definition record_call (c : call) : M unit :=
  fun st => (State (fs st) (stdout st) (calls st ++ [c]), Return tt).

Definition nl : string := String (Str.byte 10) EmptyString.

(** ** Paths and the file system *)

Module Path.

Definition squote : ascii := Str.byte 39.
Definition dquote : ascii := Str.byte 34.
Definition backslash : ascii := Str.byte 92.

Definition has (c : ascii) (s : string) : bool :=
  Str.contains (String c EmptyString) s.

Definition hex_digit (n : nat) : ascii :=
  match String.get n "0123456789abcdef" with
  | Some c => c
  | None => "0"%char
  end.

(** One character the way [repr] writes it between the quotes: the
    backslash and the quote in use behind a backslash, tab, line feed and
    carriage return by their letters, the other control characters of
    ASCII in hexadecimal, everything else as it is (the bytes above 127
    are written as they are, which is what [repr] does with the
    printable characters they encode). *)
Definition escape (quote c : ascii) : string :=
  let n := nat_of_ascii c in
  if Ascii.eqb c backslash || Ascii.eqb c quote
  then String backslash (String c EmptyString)
  else if (n =? 9)%nat then String backslash "t"
  else if (n =? 10)%nat then String backslash "n"
  else if (n =? 13)%nat then String backslash "r"
  else if (n <? 32)%nat || (n =? 127)%nat
  then String backslash
         (String "x" (String (hex_digit (n / 16))
                        (String (hex_digit (n mod 16)) EmptyString)))
  else String c EmptyString.

Fixpoint escaped (quote : ascii) (s : string) : string :=
  match s with
  | EmptyString => EmptyString
  | String c s' => escape quote c +:+ escaped quote s'
  end.

(** [repr(p)] for a [str]: in single quotes, or in double quotes when
    [p] has a single quote in it and no double one. *)
Definition repr (p : string) : string :=
  let quote := if has squote p && negb (has dquote p) then dquote else squote in
  String quote (escaped quote p +:+ String quote EmptyString).

(** [os.path.join(a, b)] on POSIX. *)
Definition join (a b : string) : string :=
  if Str.startswith "/" b then b
  else if String.eqb a EmptyString || Str.startswith "/" (Str.rev a) then a +:+ b
  else a +:+ "/" +:+ b.

Fixpoint from_first_slash (s : string) : string :=
  match s with
  | EmptyString => EmptyString
  | String c s' => if Ascii.eqb c "/" then s else from_first_slash s'
  end.

(** [os.path.dirname(p)] on POSIX: everything up to the last slash,
    without trailing slashes unless it is the root. *)
Definition dirname (p : string) : string :=
  let head := Str.rev (from_first_slash (Str.rev p)) in
  let trimmed := Str.rstrip_slash head in
  if String.eqb trimmed EmptyString then head else trimmed.

End Path.

Definition enoent (p : string) : exn :=
  Exn OSError ("[Errno 2] No such file or directory: " +:+ Path.repr p).
Definition eexist (p : string) : exn :=
  Exn OSError ("[Errno 17] File exists: " +:+ Path.repr p).
Definition enotdir (p : string) : exn :=
  Exn OSError ("[Errno 20] Not a directory: " +:+ Path.repr p).
Definition eisdir (p : string) : exn :=
  Exn OSError ("[Errno 21] Is a directory: " +:+ Path.repr p).

(** [os.path.exists(p)]. *)
Definition path_exists (p : string) : M bool :=
  fun st => (st, Return (bool_decide (is_Some (fs st !! p)))).

(** [os.makedirs(p, exist_ok=True)] for a single path component. *)
Definition makedirs (p : string) : M unit :=
  fun st =>
    match fs st !! p with
    | Some Dir => (st, Return tt)
    | Some (File _) => (st, Raise (eexist p))
    | None => (State (<[p := Dir]> (fs st)) (stdout st) (calls st), Return tt)
    end.

(** Whether [open(p, "w")] can create or truncate [p]: the directory it
    names must exist and [p] must not be a directory. *)
Definition open_for_writing (files : gmap string node) (p : string) : option exn :=
  let parent := Path.dirname p in
  match (if String.eqb parent EmptyString then Some Dir else files !! parent) with
  | None => Some (enoent p)
  | Some (File _) => Some (enotdir p)
  | Some Dir =>
      match files !! p with
      | Some Dir => Some (eisdir p)
      | _ => None
      end
  end.

(** [with open(p, "w") as f: f.write(text)]. *)
Definition write_file (p text : string) : M unit :=
  fun st =>
    match open_for_writing (fs st) p with
    | Some e => (st, Raise e)
    | None => (State (<[p := File text]> (fs st)) (stdout st) (calls st), Return tt)
    end.

(** [os.remove(p)]. *)
Definition remove (p : string) : M unit :=
  fun st =>
    match fs st !! p with
    | Some (File _) => (State (delete p (fs st)) (stdout st) (calls st), Return tt)
    | Some Dir => (st, Raise (eisdir p))
    | None => (st, Raise (enoent p))
    end.

(** ** Subprocesses *)

(** What a child process does: it exits with a status after some seconds,
    it cannot be started at all (the text is that of the [OSError]), or it
    never finishes. *)
Inductive process : Set :=
| Exits (code : Z) (seconds : Z)
| NotStarted (why : string)
| Forever.

Definition repr_cmd (cmd : list string) : string :=
  "[" +:+ String.concat ", " (map Path.repr cmd) +:+ "]".

(** The members of [signal.Signals] on Linux, by number. *)
Definition signals : list (Z * string) :=
  [(1, "SIGHUP"); (2, "SIGINT"); (3, "SIGQUIT"); (4, "SIGILL"); (5, "SIGTRAP");
   (6, "SIGABRT"); (7, "SIGBUS"); (8, "SIGFPE"); (9, "SIGKILL"); (10, "SIGUSR1");
   (11, "SIGSEGV"); (12, "SIGUSR2"); (13, "SIGPIPE"); (14, "SIGALRM");
   (15, "SIGTERM"); (16, "SIGSTKFLT"); (17, "SIGCHLD"); (18, "SIGCONT");
   (19, "SIGSTOP"); (20, "SIGTSTP"); (21, "SIGTTIN"); (22, "SIGTTOU");
   (23, "SIGURG"); (24, "SIGXCPU"); (25, "SIGXFSZ"); (26, "SIGVTALRM");
   (27, "SIGPROF"); (28, "SIGWINCH"); (29, "SIGIO"); (30, "SIGPWR");
   (31, "SIGSYS"); (34, "SIGRTMIN"); (64, "SIGRTMAX")].

Fixpoint signal_name (n : Z) (table : list (Z * string)) : option string :=
  match table with
  | [] => None
  | (k, name) :: table' => if k =? n then Some name else signal_name n table'
  end.

(** [str(e)] for a [CalledProcessError]: a negative return code is the
    signal that ended the child. *)
Definition called_process_text (cmd : list string) (code : Z) : string :=
  if code <? 0
  then
    match signal_name (- code) signals with
    | Some name =>
        "Command '" +:+ repr_cmd cmd +:+ "' died with <Signals." +:+ name
          +:+ ": " +:+ pretty (- code) +:+ ">."
    | None =>
        "Command '" +:+ repr_cmd cmd +:+ "' died with unknown signal "
          +:+ pretty (- code) +:+ "."
    end
  else
    "Command '" +:+ repr_cmd cmd +:+ "' returned non-zero exit status "
      +:+ pretty code +:+ ".".

Definition called_process_error (cmd : list string) (code : Z) : exn :=
  Exn CalledProcessError (called_process_text cmd code).

Definition timeout_expired (cmd : list string) (t : Z) : exn :=
  Exn TimeoutExpired
    ("Command '" +:+ repr_cmd cmd +:+ "' timed out after "
       +:+ pretty t +:+ " seconds").

(** [subprocess.run(cmd, timeout=timeout, check=True)] for a child that
    behaves as [p] and, when it exits with status 0, has changed the files
    by [effect].  Without a timeout the call waits for the child for as
    long as it runs. *)
Definition subprocess_run (cmd : list string) (timeout : option Z)
    (p : process) (effect : gmap string node -> gmap string node) : M unit :=
  record_call (Spawn cmd timeout) ;;
  match p with
  | NotStarted why => raise (Exn OSError why)
  | Forever =>
      match timeout with
      | Some t => raise (timeout_expired cmd t)
      | None => fun st => (st, Hang)
      end
  | Exits code seconds =>
      match timeout with
      | Some t => if t <? seconds then raise (timeout_expired cmd t) else ret tt
      | None => ret tt
      end ;;
      if code =? 0
      then fun st => (State (effect (fs st)) (stdout st) (calls st), Return tt)
      else raise (called_process_error cmd code)
  end.

(** ** The world outside the script *)

(** What [model.generate_content] returns: a response whose [.text] is a
    text, or one whose [.text] raises. *)
Inductive response : Set :=
| Text (text : string)
| NoText (e : exn).

(** The collaborators of one run: the user's home directory, the clock,
    the scanner binary, the remote model and the document converter. *)
Record World : Type := {
  (** what [os.path.expanduser] puts in place of [~] *)
  home : string;
  (** [datetime.now().strftime("%Y%m%d_%H%M%S")] *)
  now : string;
  (** [nuclei -version] *)
  nuclei_version : process;
  (** a scan of a target, by the number of scans started earlier *)
  nuclei_scan : string -> nat -> process;
  (** what a scan that exits with status 0 leaves in its [-o] file, if it
      creates the file *)
  nuclei_output : string -> option string;
  (** [model.generate_content(prompt)]: the response or the exception *)
  gemini : string -> exn + response;
  (** [pandoc] on a Markdown text *)
  pandoc : string -> process;
  (** the document a successful [pandoc] writes for a Markdown text *)
  pandoc_pdf : string -> string;
  (** [str(e)] of the [UnicodeDecodeError] for bytes that do not decode *)
  codec_error : string -> string;
  (** what [parser.print_help()] writes, less the line feed at its end;
      it names the file the script is run from *)
  help_text : string
}.

(** [os.path.expanduser(p)] on POSIX for a path of the form [~/...], the
    only kind the script expands. *)
Definition expanduser (w : World) (p : string) : string :=
  if Str.startswith "~/" p
  then Str.rstrip_slash (home w) +:+ Str.drop 1 p
  else p.

(** [with open(p, 'r') as f: f.read()]. *)
Definition read_file (w : World) (p : string) : M string :=
  fun st =>
    match fs st !! p with
    | Some (File bytes) =>
        match Codec.decode bytes with
        | Some text => (st, Return text)
        | None => (st, Raise (Exn OtherException (codec_error w bytes)))
        end
    | Some Dir => (st, Raise (eisdir p))
    | None => (st, Raise (enoent p))
    end.

(** ** Configuration *)

Definition NUCLEI_PATH : string := "nuclei".
Definition TEMPLATES_DIR (w : World) : string := expanduser w "~/nuclei-templates".
Definition OUTPUT_DIR : string := "nuclei_scans".
Definition REPORT_PATH (w : World) : string := expanduser w "~/Desktop/gemini_report".

(** ** The script *)

(** A scan is a subprocess whose command line starts [nuclei -u]. *)
Definition is_scan (c : call) : bool :=
  match c with
  | Spawn (prog :: flag :: _) _ => String.eqb prog NUCLEI_PATH && String.eqb flag "-u"
  | _ => false
  end.

Definition is_generate (c : call) : bool :=
  match c with
  | GenerateContent _ => true
  | _ => false
  end.

Definition is_pandoc (c : call) : bool :=
  match c with
  | Spawn (prog :: _) _ => String.eqb prog "pandoc"
  | _ => false
  end.

(** How many calls of a kind a run has made so far. *)
Definition count (kind : call -> bool) (st : state) : nat :=
  length (filter (fun c => kind c = true) (calls st)).

(** [verify_setup()]. *)
Definition verify_setup (w : World) : M unit :=
  print "📦 Verifying Nuclei and template setup..." ;;
  try_except
    (subprocess_run [NUCLEI_PATH; "-version"] None (nuclei_version w) id)
    is_Exception
    (fun _ =>
       print "❌ Nuclei not found. Install with:" ;;
       print "go install -v github.com/projectdiscovery/nuclei/v2/cmd/nuclei@latest" ;;
       exit 1) ;;
  let* found := path_exists (TEMPLATES_DIR w) in
  (if negb found
   then
     print ("❌ Templates not found at " +:+ TEMPLATES_DIR w) ;;
     print "Update templates using: nuclei -update-templates" ;;
     exit 1
   else ret tt) ;;
  makedirs OUTPUT_DIR ;;
  print ("✅ Setup verified." +:+ nl).

(** The command line of a scan. *)
Definition scan_cmd (w : World) (target output_file : string) : list string :=
  [NUCLEI_PATH; "-u"; target; "-t"; TEMPLATES_DIR w; "-silent"; "-o"; output_file].

(** What a scan that exits with status 0 does to the files. *)
Definition scan_effect (w : World) (target output_file : string)
    (files : gmap string node) : gmap string node :=
  match nuclei_output w target with
  | Some findings => <[output_file := File findings]> files
  | None => files
  end.

(** [run_nuclei_scan(target)]. *)
Definition run_nuclei_scan (w : World) (target : string) : M string :=
  let timestamp := now w in
  let output_file := Path.join OUTPUT_DIR ("scan_" +:+ timestamp +:+ ".json") in
  let cmd := scan_cmd w target output_file in
  print ("🚀 Running Nuclei scan on " +:+ target +:+ " using all templates...") ;;
  try_except
    (fun st =>
       (subprocess_run cmd None (nuclei_scan w target (count is_scan st))
          (scan_effect w target output_file) ;;
        print ("✅ Scan completed. Results saved to " +:+ output_file +:+ nl) ;;
        ret output_file) st)
    is_CalledProcessError
    (fun _ =>
       print "❌ Scan failed. Check internet or target URL format (http:// or https://)" ;;
       exit 1).

(** The prompt built around the content of the scan file. *)
Definition prompt_of (content : string) : string :=
  "
    Analyze the following Nuclei scan output and generate a detailed, structured security report in Markdown format.
    Highlight critical and high-severity issues. Use proper headings and bullet points.

    --- Begin Scan Data ---
    " +:+ content +:+ "
    --- End Scan Data ---
    ".

(** [model.generate_content(prompt)]. *)
Definition generate_content (w : World) (prompt : string) : M response :=
  record_call (GenerateContent prompt) ;;
  match gemini w prompt with
  | inl e => raise e
  | inr r => ret r
  end.

(** [response.text]. *)
Definition response_text (r : response) : M string :=
  match r with
  | Text text => ret text
  | NoText e => raise e
  end.

(** [generate_report_from_file(file_path)].  The first [try] either leaves
    with the error text ([inl]) or goes on with the content ([inr]). *)
Definition generate_report_from_file (w : World) (file_path : string) : M string :=
  print "🤖 Sending results to Gemini for analysis..." ;;
  let* read :=
    try_except
      (let* content := read_file w file_path in ret (inr content))
      is_Exception
      (fun e => ret (inl ("Error reading file: " +:+ str e))) in
  match read with
  | inl error_text => ret error_text
  | inr content =>
      let prompt := prompt_of content in
      try_except
        (let* response := generate_content w prompt in
         print ("✅ Gemini analysis complete." +:+ nl) ;;
         let* text := response_text response in
         ret (Str.strip text))
        is_Exception
        (fun e => ret ("Error communicating with Gemini: " +:+ str e))
  end.

(** The command line of the conversion. *)
Definition pandoc_cmd (md_path pdf_path : string) : list string :=
  ["pandoc"; md_path; "-o"; pdf_path].

(** [save_report_to_pdf(markdown_text, base_path)]. *)
Definition save_report_to_pdf (w : World) (markdown_text base_path : string) : M unit :=
  let md_path := base_path +:+ ".md" in
  let pdf_path := base_path +:+ ".pdf" in
  print "📝 Saving Markdown report..." ;;
  write_file md_path markdown_text ;;
  print "📄 Converting Markdown to PDF..." ;;
  try_except
    (subprocess_run (pandoc_cmd md_path pdf_path) None (pandoc w markdown_text)
       (fun files => <[pdf_path := File (pandoc_pdf w markdown_text)]> files) ;;
     remove md_path ;;
     print ("✅ PDF report saved at: " +:+ pdf_path))
    is_CalledProcessError
    (fun e => print ("❌ Failed to convert to PDF: " +:+ str e)).

(** The body of [if __name__ == "__main__":] once the target is parsed. *)
Definition main (w : World) (target : string) : M unit :=
  verify_setup w ;;
  let* scan_file := run_nuclei_scan w target in
  let* report_md := generate_report_from_file w scan_file in
  if Str.contains "Error" report_md
  then print report_md
  else save_report_to_pdf w report_md (REPORT_PATH w).

(** The exit status of the interpreter: 0 when the script runs to its end,
    the argument of [exit], 1 after an uncaught exception, and none when
    the script never ends. *)
Definition exit_status {A} (o : outcome A) : option Z :=
  match o with
  | Return _ => Some 0
  | SystemExit code => Some code
  | Raise _ => Some 1
  | Hang => None
  end.

(** ** The command line *)

(** [argparse] sorts the arguments of the command line before it matches
    them.  For the parser of this script (one positional [target], and the
    [-h]/[--help] every parser gets) four kinds are told apart here: a word
    (it does not start with a dash: a positional argument), the help flag
    written out in full, a long option the parser does not know (two
    dashes, then a character other than [h] and [=], no space), and
    everything else (abbreviated or glued flags, a lone dash, the [--]
    separator, negative numbers), which is left out of the model. *)
Inductive arg_kind : Set :=
| Word
| HelpFlag
| UnknownOption
| Unmodelled.

#[global] Instance arg_kind_eq_dec : EqDecision arg_kind.
Proof. solve_decision. Defined.







(** ** A machine to run the script on *)

Module Kali.

Definition files : gmap string node :=
  <["/home/kali/Desktop" := Dir]>
    (<["/home/kali/nuclei-templates" := Dir]>
       (<["/home/kali" := Dir]> ∅)).

Definition boot : state := State files [] [].

Definition findings : string :=
  "[CVE-2021-41773] [http] [critical] https://a.test/cgi-bin/".

Definition report : string := "# Security report
- critical: CVE-2021-41773
".

(** Everything works. *)
Definition healthy : World := {|
  home := "/home/kali";
  now := "20240101_120000";
  nuclei_version := Exits 0 1;
  nuclei_scan := fun _ _ => Exits 0 30;
  nuclei_output := fun _ => Some findings;
  gemini := fun _ => inr (Text report);
  pandoc := fun _ => Exits 0 2;
  pandoc_pdf := fun md => "%PDF-1.5 " +:+ md;
  codec_error := fun _ =>
    "'utf-8' codec can't decode byte 0xff in position 0: invalid start byte";
  help_text := "usage: code.py [-h] target

Nuclei + Gemini Automated Scanner

positional arguments:
  target      Target URL (include http:// or https://)

options:
  -h, --help  show this help message and exit"
|}.

Definition with_version (p : process) (w : World) : World := {|
  home := home w; now := now w; nuclei_version := p;
  nuclei_scan := nuclei_scan w; nuclei_output := nuclei_output w;
  gemini := gemini w; pandoc := pandoc w; pandoc_pdf := pandoc_pdf w;
  codec_error := codec_error w; help_text := help_text w
|}.

Definition with_scan (p : string -> nat -> process) (w : World) : World := {|
  home := home w; now := now w; nuclei_version := nuclei_version w;
  nuclei_scan := p; nuclei_output := nuclei_output w;
  gemini := gemini w; pandoc := pandoc w; pandoc_pdf := pandoc_pdf w;
  codec_error := codec_error w; help_text := help_text w
|}.

Definition with_output (o : string -> option string) (w : World) : World := {|
  home := home w; now := now w; nuclei_version := nuclei_version w;
  nuclei_scan := nuclei_scan w; nuclei_output := o;
  gemini := gemini w; pandoc := pandoc w; pandoc_pdf := pandoc_pdf w;
  codec_error := codec_error w; help_text := help_text w
|}.

Definition with_gemini (g : string -> exn + response) (w : World) : World := {|
  home := home w; now := now w; nuclei_version := nuclei_version w;
  nuclei_scan := nuclei_scan w; nuclei_output := nuclei_output w;
  gemini := g; pandoc := pandoc w; pandoc_pdf := pandoc_pdf w;
  codec_error := codec_error w; help_text := help_text w
|}.

Definition with_pandoc (p : string -> process) (w : World) : World := {|
  home := home w; now := now w; nuclei_version := nuclei_version w;
  nuclei_scan := nuclei_scan w; nuclei_output := nuclei_output w;
  gemini := gemini w; pandoc := p; pandoc_pdf := pandoc_pdf w;
  codec_error := codec_error w; help_text := help_text w
|}.

End Kali.

(** ** What the properties speak of *)

(** A child that was started, or should have been, and did not exit with
    status 0. *)
Definition fails (p : process) : bool :=
  match p with
  | Exits code _ => negb (code =? 0)
  | NotStarted _ => true
  | Forever => false
  end.

Definition version_probe : call := Spawn [NUCLEI_PATH; "-version"] None.

(** The startup check fails: the scanner binary cannot be executed, or it
    can and the template directory does not exist. *)
Definition startup_fails (w : World) (st : state) : Prop :=
  fails (nuclei_version w) = true
  \/ ((exists secs, nuclei_version w = Exits 0 secs)
      /\ fs st !! TEMPLATES_DIR w = None).

(** The startup check passes: the scanner answers [-version] with status
    0, the templates are there, and the output directory is there or can
    be made. *)
Definition setup_ok (w : World) (st : state) : bool :=
  match nuclei_version w with Exits 0 _ => true | _ => false end
  && bool_decide (is_Some (fs st !! TEMPLATES_DIR w))
  && match fs st !! OUTPUT_DIR with Some (File _) => false | _ => true end.

Definition with_output_dir (files : gmap string node) : gmap string node :=
  match files !! OUTPUT_DIR with
  | None => <[OUTPUT_DIR := Dir]> files
  | Some _ => files
  end.

Definition after_setup (st : state) : state :=
  State (with_output_dir (fs st))
    (stdout st ++ ["📦 Verifying Nuclei and template setup...";
                   "✅ Setup verified." +:+ nl])
    (calls st ++ [version_probe]).

Definition output_file (w : World) : string :=
  Path.join OUTPUT_DIR ("scan_" +:+ now w +:+ ".json").

Definition scan_call (w : World) (target : string) : call :=
  Spawn (scan_cmd w target (output_file w)) None.

Definition scan_banner (target : string) : string :=
  "🚀 Running Nuclei scan on " +:+ target +:+ " using all templates...".

(** The state in which the report is written, when the startup check
    passed and the scan exited with status 0. *)
Definition scanned (w : World) (target : string) (st : state) : state :=
  State (scan_effect w target (output_file w) (fs (after_setup st)))
    (stdout (after_setup st)
       ++ [scan_banner target;
           "✅ Scan completed. Results saved to " +:+ output_file w +:+ nl])
    (calls (after_setup st) ++ [scan_call w target]).

Definition report_banner : string := "🤖 Sending results to Gemini for analysis...".

(** What [open(p, 'r')] followed by [read()] raises, if anything. *)
Definition read_error (w : World) (files : gmap string node) (p : string) :
    option exn :=
  match files !! p with
  | Some (File bytes) =>
      match Codec.decode bytes with
      | Some _ => None
      | None => Some (Exn OtherException (codec_error w bytes))
      end
  | Some Dir => Some (eisdir p)
  | None => Some (enoent p)
  end.

(** The text that reading [p] gives, when it gives one. *)
Definition file_text (files : gmap string node) (p : string) : option string :=
  match files !! p with
  | Some (File bytes) => Codec.decode bytes
  | _ => None
  end.

(** What the remote model has to say to a prompt: the text of its
    response, or the exception that the call or [.text] raises. *)
Definition answer (w : World) (prompt : string) : exn + string :=
  match gemini w prompt with
  | inl e => inl e
  | inr (NoText e) => inl e
  | inr (Text text) => inr text
  end.

(** The summary of the scan file [p] cannot be made: the file cannot be
    read, or the remote model raises on its prompt. *)
Definition summary_fails (w : World) (files : gmap string node) (p : string) : Prop :=
  is_Some (read_error w files p)
  \/ exists content e,
       file_text files p = Some content /\ answer w (prompt_of content) = inl e.


Definition saving_banner : list string :=
  ["📝 Saving Markdown report..."; "📄 Converting Markdown to PDF..."].

Definition convert_call (base : string) : call :=
  Spawn (pandoc_cmd (base +:+ ".md") (base +:+ ".pdf")) None.

Definition untimed (c : call) : Prop :=
  match c with
  | Spawn _ timeout => timeout = None
  | GenerateContent _ => True
  end.

(** A computation that only adds calls, none of them with a timeout. *)
Definition adds_untimed {A} (m : M A) : Prop :=
  forall st, exists l, calls (m st).1 = calls st ++ l /\ Forall untimed l.


(** ** Worlds in which something goes wrong *)

(** The scanner is not installed. *)
Definition no_scanner : World :=
  Kali.with_version (NotStarted "[Errno 2] No such file or directory: 'nuclei'")
    Kali.healthy.

(** The first scan fails; a second one would have worked. *)
Definition flaky_scanner : World :=
  Kali.with_scan
    (fun _ attempt => match attempt with O => Exits 1 5 | S _ => Exits 0 30 end)
    Kali.healthy.

(** The scanner starts and never exits. *)
Definition hung_scanner : World :=
  Kali.with_scan (fun _ _ => Forever) Kali.healthy.

(** The converter rejects every document. *)
Definition broken_pandoc : World :=
  Kali.with_pandoc (fun _ => Exits 43 1) Kali.healthy.

(** A scan file without a single finding. *)
Definition empty_scan : state :=
  State (<["nuclei_scans/scan_20240101_120000.json" := File EmptyString]> Kali.files) [] [].

(** A scan file with the line ends of DOS: [[a]], carriage return, line
    feed, [[b]]. *)
Definition dos_scan : state :=
  State (<["nuclei_scans/scan_20240101_120000.json"
           := File (Str.bytes [91; 97; 93; 13; 10; 91; 98; 93]%nat)]> Kali.files)
    [] [].

(** A scan file that is not UTF-8: a byte 255 in it. *)
Definition raw_scan : state :=
  State (<["nuclei_scans/scan_20240101_120000.json"
           := File (Str.bytes [91; 255; 93]%nat)]> Kali.files)
    [] [].

(** The remote model refuses every prompt. *)
Definition no_model : World :=
  Kali.with_gemini
    (fun _ => inl (Exn OtherException "429 Resource has been exhausted"))
    Kali.healthy.

(** The model answers with a report about the error handling of the
    target. *)
Definition error_page_report : World :=
  Kali.with_gemini
    (fun _ => inr (Text "# Security report
- medium: verbose Error pages disclose stack traces
"))
    Kali.healthy.

(** ** What the further properties speak of *)

(** [s] begins with a white space character. *)
Definition starts_with_space (s : string) : bool :=
  bool_decide (is_Some (Str.leading Str.whitespace s)).

(** [s] ends with a white space character. *)
Definition ends_with_space (s : string) : bool :=
  bool_decide (is_Some (Str.leading (map Str.rev Str.whitespace) (Str.rev s))).

(** No byte of [s] is [a]. *)
Fixpoint avoids (a : ascii) (s : string) : bool :=
  match s with
  | EmptyString => true
  | String b s' => negb (Ascii.eqb a b) && avoids a s'
  end.

(** The text of what a scan that works leaves in its file, when it
    leaves a file and the file can be read as text. *)
Definition scan_text (w : World) (target : string) : option string :=
  match nuclei_output w target with
  | Some bytes => Codec.decode bytes
  | None => None
  end.

(** The state in which the report is saved, when the text of the scan file
    was [content] and the remote model answered its prompt with a text. *)
Definition summarized (w : World) (target : string) (st : state)
    (content : string) : state :=
  State (fs (scanned w target st))
    (stdout (scanned w target st)
       ++ [report_banner; "✅ Gemini analysis complete." +:+ nl])
    (calls (scanned w target st) ++ [GenerateContent (prompt_of content)]).

(** The calls of a run that goes all the way, in their order. *)
Definition pipeline (w : World) (target prompt : string) : list call :=
  [version_probe; scan_call w target; GenerateContent prompt;
   convert_call (REPORT_PATH w)].

(** Two scans, one after the other, within the same second. *)
Definition two_scans (w : World) (first second : string) : M (string * string) :=
  let* a := run_nuclei_scan w first in
  let* b := run_nuclei_scan w second in
  ret (a, b).

(** The model answers with blank lines and a no-break space around its
    report. *)
Definition padded_report : World :=
  Kali.with_gemini
    (fun _ => inr (Text (nl +:+ nl +:+ "  # Report" +:+ Str.bytes [194; 160]%nat +:+ nl)))
    Kali.healthy.

(** Each target has findings of its own. *)
Definition two_targets : World :=
  Kali.with_output (fun target => Some ("[info] " +:+ target)) Kali.healthy.

(** The scanner is there and answers [-version] with status 3. *)
Definition sick_scanner : World :=
  Kali.with_version (Exits 3 1) Kali.healthy.

(** Where the output directory should be there is a file. *)
Definition output_dir_taken : state :=
  State (<[OUTPUT_DIR := File "notes"]> Kali.files) [] [].

(** A report of an earlier run is still on the desktop. *)
Definition old_report : state :=
  State (<["/home/kali/Desktop/gemini_report.pdf" := File "%PDF-1.5 old"]> Kali.files)
    [] [].

(** The converter is not installed. *)
Definition no_pandoc : World :=
  Kali.with_pandoc
    (fun _ => NotStarted "[Errno 2] No such file or directory: 'pandoc'")
    Kali.healthy.

(** The scanner finds nothing and writes no file. *)
Definition silent_scanner : World :=
  Kali.with_output (fun _ => None) Kali.healthy.

(** There is no [Desktop] directory. *)
Definition no_desktop : state :=
  State (delete "/home/kali/Desktop" Kali.files) [] [].

(** The scanner answers [-version] but is gone when the scan starts. *)
Definition vanished_scanner : World :=
  Kali.with_scan
    (fun _ _ => NotStarted "[Errno 2] No such file or directory: 'nuclei'")
    Kali.healthy.

(** [nuclei -version] never comes back. *)
Definition hung_probe : World := Kali.with_version Forever Kali.healthy.

(** The converter never exits. *)
Definition hung_pandoc : World := Kali.with_pandoc (fun _ => Forever) Kali.healthy.

(** The model sends a response without a text in it. *)
Definition blocked_response : World :=
  Kali.with_gemini
    (fun _ => inr (NoText (Exn OtherException "response has no valid part")))
    Kali.healthy.

(** * Properties *)

(** ** Substrings *)

Section Substrings.

Implicit Types p s needle pre post base : string.

Lemma startswith_app p rest : Str.startswith p (p +:+ rest) = true.
Proof.
  induction p as [|a p IH]; simpl; [done|].
  by rewrite Ascii.eqb_refl.
Qed.

Lemma startswith_inv p s :
  Str.startswith p s = true -> exists rest, s = p +:+ rest.
Proof.
  revert s. induction p as [|a p IH]; intros s H.
  - by exists s.
  - destruct s as [|b s]; simpl in H; [done|].
    destruct (Ascii.eqb_spec a b) as [->|]; [|done].
    destruct (IH _ H) as [rest ->]. by exists rest.
Qed.

Lemma contains_here needle s :
  Str.startswith needle s = true -> Str.contains needle s = true.
Proof. intros H. destruct s; simpl; by rewrite H. Qed.

Lemma contains_app needle pre post :
  Str.contains needle (pre +:+ needle +:+ post) = true.
Proof.
  induction pre as [|c pre IH].
  - change (Str.contains needle (needle +:+ post) = true).
    apply contains_here, startswith_app.
  - change (Str.contains needle (String c (pre +:+ needle +:+ post)) = true).
    simpl. rewrite IH. apply orb_true_r.
Qed.

Lemma contains_inv needle s :
  Str.contains needle s = true ->
  exists pre post, s = pre +:+ needle +:+ post.
Proof.
  induction s as [|c s IH]; simpl; intros H.
  - rewrite orb_false_r in H.
    destruct (startswith_inv _ _ H) as [rest E]. by exists EmptyString, rest.
  - apply orb_true_iff in H as [H|H].
    + destruct (startswith_inv _ _ H) as [rest E]. by exists EmptyString, rest.
    + destruct (IH H) as (pre & post & ->). by exists (String c pre), post.
Qed.

(** [needle in s] holds exactly when [s] is some text, then [needle],
    then some text. *)
Lemma contains_spec needle s :
  Str.contains needle s = true <->
  exists pre post, s = pre +:+ needle +:+ post.
Proof.
  split; [apply contains_inv|].
  intros (pre & post & ->). apply contains_app.
Qed.

Lemma startswith_contains p s :
  Str.startswith p s = true -> Str.contains p s = true.
Proof.
  intros H. destruct (startswith_inv _ _ H) as [rest ->].
  apply (contains_app p EmptyString rest).
Qed.

Lemma append_inj base s1 s2 : base +:+ s1 = base +:+ s2 -> s1 = s2.
Proof.
  induction base as [|c base IH]; simpl; [done|].
  intros [= H]. by apply IH.
Qed.

Lemma md_is_not_pdf base : base +:+ ".md" <> base +:+ ".pdf".
Proof. intros H. by apply append_inj in H. Qed.

End Substrings.

Example strip_ex : Str.strip "  # Report
ok
" = "# Report
ok".
Proof. vm_compute. reflexivity. Qed.

(** ** Strings, once more *)

Section MoreStrings.

Implicit Types s t c needle pre post : string.

Lemma append_cons a s t : String a s +:+ t = String a (s +:+ t).
Proof. reflexivity. Qed.

Lemma append_assoc s t u : (s +:+ t) +:+ u = s +:+ t +:+ u.
Proof. induction s as [|a s IH]; [done|]. rewrite !append_cons. by f_equal. Qed.

Lemma append_nil_r s : s +:+ EmptyString = s.
Proof. induction s as [|a s IH]; [done|]. rewrite !append_cons. by f_equal. Qed.

Lemma length_append s t :
  String.length (s +:+ t) = (String.length s + String.length t)%nat.
Proof.
  induction s as [|a s IH]; [done|].
  rewrite append_cons. simpl. by rewrite IH.
Qed.

Lemma rev_onto_spec acc s : Str.rev_onto acc s = Str.rev s +:+ acc.
Proof.
  unfold Str.rev. revert acc.
  induction s as [|a s IH]; intros acc; simpl; [done|].
  rewrite (IH (String a acc)), (IH (String a EmptyString)).
  by rewrite append_assoc.
Qed.

Lemma rev_cons a s : Str.rev (String a s) = Str.rev s +:+ String a EmptyString.
Proof. unfold Str.rev at 1. simpl. apply rev_onto_spec. Qed.

Lemma rev_append s t : Str.rev (s +:+ t) = Str.rev t +:+ Str.rev s.
Proof.
  induction s as [|a s IH].
  - change (Str.rev t = Str.rev t +:+ EmptyString). by rewrite append_nil_r.
  - by rewrite append_cons, !rev_cons, IH, append_assoc.
Qed.

Lemma rev_involutive s : Str.rev (Str.rev s) = s.
Proof.
  induction s as [|a s IH]; [done|].
  by rewrite rev_cons, rev_append, IH.
Qed.

Lemma length_rev s : String.length (Str.rev s) = String.length s.
Proof.
  induction s as [|a s IH]; [done|].
  rewrite rev_cons, length_append, IH. simpl. lia.
Qed.

Lemma drop_append s t : Str.drop (String.length s) (s +:+ t) = t.
Proof.
  induction s as [|a s IH]; [done|]. rewrite append_cons. exact IH.
Qed.

Lemma drop_is_suffix n s : exists pre, s = pre +:+ Str.drop n s.
Proof.
  revert s. induction n as [|n IH]; intros s.
  - by exists EmptyString.
  - destruct s as [|a s]; [by exists EmptyString|].
    destruct (IH s) as [pre E]. exists (String a pre).
    rewrite append_cons. simpl. by rewrite <- E.
Qed.

Lemma length_drop n s :
  String.length (Str.drop n s) = (String.length s - n)%nat.
Proof.
  revert s. induction n as [|n IH]; intros [|a s]; simpl; try done; lia.
Qed.

(** What [leading] finds is one of the characters, at the front. *)
Lemma leading_Some chars s n :
  Str.leading chars s = Some n ->
  exists c rest, In c chars /\ s = c +:+ rest /\ n = String.length c.
Proof.
  induction chars as [|c chars IH]; simpl; [done|].
  destruct (Str.startswith c s) eqn:E.
  - intros [= <-]. destruct (startswith_inv _ _ E) as [rest ->].
    exists c, rest. split; [by left|done].
  - intros H. destruct (IH H) as (c' & rest & Hin & -> & ->).
    exists c', rest. split; [by right|done].
Qed.

Lemma leading_prefix chars s t :
  Str.leading chars (s +:+ t) = None -> Str.leading chars s = None.
Proof.
  induction chars as [|c chars IH]; simpl; [done|].
  destruct (Str.startswith c (s +:+ t)) eqn:E; [done|].
  intros H. destruct (Str.startswith c s) eqn:E'; [|auto].
  destruct (startswith_inv _ _ E') as [rest ->].
  by rewrite append_assoc, startswith_app in E.
Qed.

(** With fuel for every byte, stripping stops only where no character of
    [chars] is in front. *)
Lemma lstrip_chars_done fuel chars s :
  ~ In EmptyString chars ->
  (String.length s <= fuel)%nat ->
  Str.leading chars (Str.lstrip_chars fuel chars s) = None.
Proof.
  intros Hne. revert s. induction fuel as [|fuel IH]; intros s Hlen; simpl.
  - destruct s; [|simpl in Hlen; lia].
    destruct (Str.leading chars EmptyString) as [n|] eqn:E; [|done].
    destruct (leading_Some _ _ _ E) as (c & rest & Hin & Hs & _).
    destruct c; [done|discriminate Hs].
  - destruct (Str.leading chars s) as [n|] eqn:E; [|done].
    apply IH. rewrite length_drop.
    destruct (leading_Some _ _ _ E) as (c & rest & Hin & Hs & ->).
    destruct c as [|a c]; [done|]. simpl. lia.
Qed.

Lemma lstrip_chars_is_suffix fuel chars s :
  exists pre, s = pre +:+ Str.lstrip_chars fuel chars s.
Proof.
  revert s. induction fuel as [|fuel IH]; intros s; simpl.
  - by exists EmptyString.
  - destruct (Str.leading chars s) as [n|]; [|by exists EmptyString].
    destruct (drop_is_suffix n s) as [pre1 E1].
    destruct (IH (Str.drop n s)) as [pre2 E2].
    exists (pre1 +:+ pre2). by rewrite append_assoc, <- E2.
Qed.

Lemma strip_is_clean s :
  starts_with_space (Str.strip s) = false /\ ends_with_space (Str.strip s) = false.
Proof.
  assert (~ In EmptyString Str.whitespace) as Hws.
  { intros H. vm_compute in H. repeat destruct H as [H|H]; done. }
  assert (~ In EmptyString (map Str.rev Str.whitespace)) as Hrws.
  { intros H. vm_compute in H. repeat destruct H as [H|H]; done. }
  unfold starts_with_space, ends_with_space, Str.strip, Str.rstrip.
  set (t := Str.lstrip s).
  assert (Str.leading Str.whitespace t = None) as Ht.
  { apply lstrip_chars_done; [done|lia]. }
  split; apply bool_decide_eq_false; intros [n Hn].
  - destruct (lstrip_chars_is_suffix (String.length t)
                (map Str.rev Str.whitespace) (Str.rev t)) as [pre E].
    apply (f_equal Str.rev) in E. rewrite rev_involutive, rev_append in E.
    rewrite E in Ht. apply leading_prefix in Ht. by rewrite Ht in Hn.
  - rewrite rev_involutive, lstrip_chars_done in Hn; [done|done|].
    by rewrite length_rev.
Qed.

End MoreStrings.

(** ** The startup check *)

Lemma count_snoc kind files out files' out' l c :
  count kind (State files out (l ++ [c])) =
  (count kind (State files' out' l) + if kind c then 1 else 0)%nat.
Proof.
  unfold count. simpl. rewrite filter_app, length_app. f_equal.
  destruct (kind c) eqn:E.
  - by rewrite filter_cons_True.
  - rewrite filter_cons_False; [done|]. by rewrite E.
Qed.

Lemma verify_setup_fatal w st :
  nuclei_version w <> Forever ->
  fails (nuclei_version w) = true \/ fs st !! TEMPLATES_DIR w = None ->
  exists out,
    verify_setup w st =
      (State (fs st) out (calls st ++ [version_probe]), SystemExit 1).
Proof.
  intros Hterm Hbad. unfold verify_setup, bind, try_except, subprocess_run, bind.
  destruct (nuclei_version w) as [code secs|why|] eqn:Hv; [| |by destruct Hterm]; simpl.
  - destruct (code =? 0) eqn:Hc; simpl.
    + destruct Hbad as [Hbad|Hbad]; [by simpl in Hbad; rewrite Hc in Hbad|].
      unfold path_exists. simpl. rewrite Hbad. simpl. eauto.
    + eauto.
  - eauto.
Qed.

(** ** Sequencing *)

Section Sequencing.

Context {A B : Type} (m : M A) (k : A -> M B) (st st' : state).

Lemma bind_return a : m st = (st', Return a) -> bind m k st = k a st'.
Proof. unfold bind. by intros ->. Qed.

Lemma bind_raise e : m st = (st', Raise e) -> bind m k st = (st', Raise e).
Proof. unfold bind. by intros ->. Qed.

Lemma bind_exit code :
  m st = (st', SystemExit code) -> bind m k st = (st', SystemExit code).
Proof. unfold bind. by intros ->. Qed.

Lemma bind_hang : m st = (st', Hang) -> bind m k st = (st', Hang).
Proof. unfold bind. by intros ->. Qed.

End Sequencing.

Ltac step_monad :=
  unfold bind, try_except, ret, exit, raise, print, record_call; simpl.

Lemma verify_setup_ok w st :
  setup_ok w st = true -> verify_setup w st = (after_setup st, Return tt).
Proof.
  unfold setup_ok, verify_setup, after_setup, with_output_dir.
  intros H. apply andb_true_iff in H as [H Hout].
  apply andb_true_iff in H as [Hv Htpl].
  destruct (nuclei_version w) as [code secs| |]; try done.
  destruct code; try done.
  unfold subprocess_run, path_exists, makedirs. step_monad.
  rewrite Htpl. simpl.
  destruct (fs st !! OUTPUT_DIR) as [[c|]|]; simpl; try done;
    by rewrite <- !app_assoc.
Qed.

(** ** The scan *)

Lemma run_nuclei_scan_ok w target st secs :
  nuclei_scan w target (count is_scan st) = Exits 0 secs ->
  run_nuclei_scan w target st =
    (State (scan_effect w target (output_file w) (fs st))
       (stdout st ++ [scan_banner target;
                      "✅ Scan completed. Results saved to " +:+ output_file w +:+ nl])
       (calls st ++ [scan_call w target]),
     Return (output_file w)).
Proof.
  intros H. unfold run_nuclei_scan, subprocess_run. step_monad.
  unfold count in *. simpl. rewrite H. simpl.
  by rewrite <- !app_assoc.
Qed.

Lemma run_nuclei_scan_failed w target st code secs :
  nuclei_scan w target (count is_scan st) = Exits code secs ->
  code <> 0 ->
  run_nuclei_scan w target st =
    (State (fs st)
       (stdout st ++ [scan_banner target;
                      "❌ Scan failed. Check internet or target URL format (http:// or https://)"])
       (calls st ++ [scan_call w target]),
     SystemExit 1).
Proof.
  intros H Hcode. unfold run_nuclei_scan, subprocess_run. step_monad.
  unfold count in *. simpl. rewrite H. simpl.
  apply Z.eqb_neq in Hcode. rewrite Hcode. simpl.
  by rewrite <- !app_assoc.
Qed.

Lemma run_nuclei_scan_not_started w target st why :
  nuclei_scan w target (count is_scan st) = NotStarted why ->
  run_nuclei_scan w target st =
    (State (fs st) (stdout st ++ [scan_banner target])
       (calls st ++ [scan_call w target]),
     Raise (Exn OSError why)).
Proof.
  intros H. unfold run_nuclei_scan, subprocess_run. step_monad.
  unfold count in *. simpl. by rewrite H.
Qed.

Lemma run_nuclei_scan_forever w target st :
  nuclei_scan w target (count is_scan st) = Forever ->
  run_nuclei_scan w target st =
    (State (fs st) (stdout st ++ [scan_banner target])
       (calls st ++ [scan_call w target]),
     Hang).
Proof.
  intros H. unfold run_nuclei_scan, subprocess_run. step_monad.
  unfold count in *. simpl. by rewrite H.
Qed.

(** ** The report *)

Lemma report_unreadable w p st e :
  read_error w (fs st) p = Some e ->
  generate_report_from_file w p st =
    (State (fs st) (stdout st ++ [report_banner]) (calls st),
     Return ("Error reading file: " +:+ str e)).
Proof.
  unfold read_error, generate_report_from_file, read_file. step_monad.
  destruct (fs st !! p) as [[bytes|]|]; [destruct (Codec.decode bytes)| |];
    intros [= <-]; done.
Qed.

Lemma report_model_failed w p st content e :
  file_text (fs st) p = Some content ->
  answer w (prompt_of content) = inl e ->
  exists out,
    generate_report_from_file w p st =
      (State (fs st) out (calls st ++ [GenerateContent (prompt_of content)]),
       Return ("Error communicating with Gemini: " +:+ str e)).
Proof.
  intros Hp Hg. unfold answer in Hg. unfold file_text in Hp.
  unfold generate_report_from_file, read_file, generate_content, response_text.
  step_monad. destruct (fs st !! p) as [[bytes|]|]; try done.
  rewrite Hp. simpl.
  destruct (gemini w (prompt_of content)) as [e'|[text|e']];
    simplify_eq; simpl; eauto.
Qed.

Lemma report_generated w p st content text :
  file_text (fs st) p = Some content ->
  answer w (prompt_of content) = inr text ->
  generate_report_from_file w p st =
    (State (fs st)
       (stdout st ++ [report_banner; "✅ Gemini analysis complete." +:+ nl])
       (calls st ++ [GenerateContent (prompt_of content)]),
     Return (Str.strip text)).
Proof.
  intros Hp Hg. unfold answer in Hg. unfold file_text in Hp.
  unfold generate_report_from_file, read_file, generate_content, response_text.
  step_monad. destruct (fs st !! p) as [[bytes|]|]; try done.
  rewrite Hp. simpl.
  destruct (gemini w (prompt_of content)) as [e'|[text'|e']];
    simplify_eq; simpl. by rewrite <- !app_assoc.
Qed.

(** ** Saving and converting *)

Lemma save_not_writable w text base st e :
  open_for_writing (fs st) (base +:+ ".md") = Some e ->
  save_report_to_pdf w text base st =
    (State (fs st) (stdout st ++ ["📝 Saving Markdown report..."]) (calls st),
     Raise e).
Proof.
  intros H. unfold save_report_to_pdf, write_file. step_monad. by rewrite H.
Qed.

Lemma save_converted w text base st secs :
  open_for_writing (fs st) (base +:+ ".md") = None ->
  pandoc w text = Exits 0 secs ->
  save_report_to_pdf w text base st =
    (State
       (delete (base +:+ ".md")
          (<[base +:+ ".pdf" := File (pandoc_pdf w text)]>
             (<[base +:+ ".md" := File text]> (fs st))))
       (stdout st ++ saving_banner
          ++ ["✅ PDF report saved at: " +:+ base +:+ ".pdf"])
       (calls st ++ [convert_call base]),
     Return tt).
Proof.
  intros Hw Hp. unfold save_report_to_pdf, write_file, subprocess_run, remove.
  step_monad. rewrite Hw. simpl. rewrite Hp. simpl.
  rewrite lookup_insert_ne by (symmetry; apply md_is_not_pdf).
  rewrite lookup_insert_eq. simpl. by rewrite <- !app_assoc.
Qed.

Lemma save_conversion_failed w text base st code secs :
  open_for_writing (fs st) (base +:+ ".md") = None ->
  pandoc w text = Exits code secs ->
  code <> 0 ->
  save_report_to_pdf w text base st =
    (State (<[base +:+ ".md" := File text]> (fs st))
       (stdout st ++ saving_banner
          ++ ["❌ Failed to convert to PDF: "
                +:+ str (called_process_error
                           (pandoc_cmd (base +:+ ".md") (base +:+ ".pdf")) code)])
       (calls st ++ [convert_call base]),
     Return tt).
Proof.
  intros Hw Hp Hcode. unfold save_report_to_pdf, write_file, subprocess_run.
  step_monad. rewrite Hw. simpl. rewrite Hp. simpl.
  apply Z.eqb_neq in Hcode. rewrite Hcode. simpl. by rewrite <- !app_assoc.
Qed.

Lemma save_converter_missing w text base st why :
  open_for_writing (fs st) (base +:+ ".md") = None ->
  pandoc w text = NotStarted why ->
  save_report_to_pdf w text base st =
    (State (<[base +:+ ".md" := File text]> (fs st))
       (stdout st ++ saving_banner)
       (calls st ++ [convert_call base]),
     Raise (Exn OSError why)).
Proof.
  intros Hw Hp. unfold save_report_to_pdf, write_file, subprocess_run.
  step_monad. rewrite Hw. simpl. rewrite Hp. simpl. by rewrite <- !app_assoc.
Qed.

Lemma save_converter_forever w text base st :
  open_for_writing (fs st) (base +:+ ".md") = None ->
  pandoc w text = Forever ->
  save_report_to_pdf w text base st =
    (State (<[base +:+ ".md" := File text]> (fs st))
       (stdout st ++ saving_banner)
       (calls st ++ [convert_call base]),
     Hang).
Proof.
  intros Hw Hp. unfold save_report_to_pdf, write_file, subprocess_run.
  step_monad. rewrite Hw. simpl. rewrite Hp. simpl. by rewrite <- !app_assoc.
Qed.

(** ** The whole run *)

Lemma count_after_setup kind st :
  kind version_probe = false -> count kind (after_setup st) = count kind st.
Proof.
  intros H. unfold after_setup.
  rewrite (count_snoc kind _ _ (fs st) (stdout st)), H.
  destruct st. simpl. lia.
Qed.

Lemma main_startup_failure w target st :
  startup_fails w st ->
  exists out,
    main w target st =
      (State (fs st) out (calls st ++ [version_probe]), SystemExit 1).
Proof.
  intros Hbad.
  assert (nuclei_version w <> Forever) as Hterm.
  { intros E. unfold startup_fails in Hbad. rewrite E in Hbad.
    by destruct Hbad as [?|[[? ?] _]]. }
  assert (fails (nuclei_version w) = true \/ fs st !! TEMPLATES_DIR w = None)
    as Hbad' by (destruct Hbad as [?|[_ ?]]; auto).
  destruct (verify_setup_fatal w st Hterm Hbad') as [out H].
  exists out. unfold main. by apply bind_exit.
Qed.

Lemma main_scan_failure w target st code secs :
  setup_ok w st = true ->
  nuclei_scan w target (count is_scan st) = Exits code secs ->
  code <> 0 ->
  exists out,
    main w target st =
      (State (fs (after_setup st)) out
         (calls st ++ [version_probe; scan_call w target]),
       SystemExit 1).
Proof.
  intros Hok Hscan Hcode. unfold main.
  rewrite (bind_return _ _ _ _ _ (verify_setup_ok w st Hok)).
  rewrite <- (count_after_setup is_scan st eq_refl) in Hscan.
  eexists. apply bind_exit.
  rewrite (run_nuclei_scan_failed _ _ _ _ _ Hscan Hcode).
  unfold after_setup. simpl. rewrite <- !app_assoc. reflexivity.
Qed.

Lemma main_scan_forever w target st :
  setup_ok w st = true ->
  nuclei_scan w target (count is_scan st) = Forever ->
  exists st', main w target st = (st', Hang)
    /\ calls st' = calls st ++ [version_probe; scan_call w target].
Proof.
  intros Hok Hscan. unfold main.
  rewrite (bind_return _ _ _ _ _ (verify_setup_ok w st Hok)).
  rewrite <- (count_after_setup is_scan st eq_refl) in Hscan.
  eexists. split.
  - apply bind_hang. apply (run_nuclei_scan_forever _ _ _ Hscan).
  - unfold after_setup. simpl. by rewrite <- app_assoc.
Qed.

Lemma main_after_scan w target st secs :
  setup_ok w st = true ->
  nuclei_scan w target (count is_scan st) = Exits 0 secs ->
  main w target st =
    (let* report_md := generate_report_from_file w (output_file w) in
     if Str.contains "Error" report_md
     then print report_md
     else save_report_to_pdf w report_md (REPORT_PATH w))
      (scanned w target st).
Proof.
  intros Hok Hscan. unfold main.
  rewrite (bind_return _ _ _ _ _ (verify_setup_ok w st Hok)).
  rewrite <- (count_after_setup is_scan st eq_refl) in Hscan.
  by rewrite (bind_return _ _ _ _ _ (run_nuclei_scan_ok _ _ _ _ Hscan)).
Qed.

(** ** Calls never carry a timeout *)

Section Untimed.

Lemma adds_nothing {A} (m : M A) :
  (forall st, calls (m st).1 = calls st) -> adds_untimed m.
Proof. intros H st. exists []. by rewrite H, app_nil_r. Qed.

Lemma untimed_ret {A} (a : A) : adds_untimed (ret a).
Proof. by apply adds_nothing. Qed.

Lemma untimed_exit {A} code : adds_untimed (@exit A code).
Proof. by apply adds_nothing. Qed.

Lemma untimed_raise {A} e : adds_untimed (@raise A e).
Proof. by apply adds_nothing. Qed.

Lemma untimed_print s : adds_untimed (print s).
Proof. by apply adds_nothing. Qed.

Lemma untimed_record c : untimed c -> adds_untimed (record_call c).
Proof. intros H st. exists [c]. split; [done|]. by constructor. Qed.

Lemma untimed_bind {A B} (m : M A) (k : A -> M B) :
  adds_untimed m -> (forall a, adds_untimed (k a)) -> adds_untimed (bind m k).
Proof.
  intros Hm Hk st. unfold bind.
  destruct (Hm st) as (l1 & E1 & F1).
  destruct (m st) as [st1 [a|e|code|]]; simpl in *; eauto.
  destruct (Hk a st1) as (l2 & E2 & F2).
  exists (l1 ++ l2). rewrite E2, E1, app_assoc. split; [done|].
  by apply Forall_app.
Qed.

Lemma untimed_try {A} (body : M A) catches handler :
  adds_untimed body -> (forall e, adds_untimed (handler e)) ->
  adds_untimed (try_except body catches handler).
Proof.
  intros Hm Hk st. unfold try_except.
  destruct (Hm st) as (l1 & E1 & F1).
  destruct (body st) as [st1 [a|e|code|]]; simpl in *; eauto.
  destruct (catches e); simpl; eauto.
  destruct (Hk e st1) as (l2 & E2 & F2).
  exists (l1 ++ l2). rewrite E2, E1, app_assoc. split; [done|].
  by apply Forall_app.
Qed.

Lemma untimed_subprocess cmd p effect :
  adds_untimed (subprocess_run cmd None p effect).
Proof.
  unfold subprocess_run. apply untimed_bind; [by apply untimed_record|].
  intros _. destruct p as [code secs|why|].
  - apply untimed_bind; [apply untimed_ret|]. intros _.
    destruct (code =? 0); [by apply adds_nothing|apply untimed_raise].
  - apply untimed_raise.
  - by apply adds_nothing.
Qed.

Lemma untimed_verify_setup w : adds_untimed (verify_setup w).
Proof.
  unfold verify_setup.
  apply untimed_bind; [apply untimed_print|]. intros _.
  apply untimed_bind.
  { apply untimed_try; [apply untimed_subprocess|]. intros _.
    repeat (apply untimed_bind; [apply untimed_print|]; intros _).
    apply untimed_exit. }
  intros _. apply untimed_bind; [by apply adds_nothing|]. intros found.
  apply untimed_bind.
  { destruct found; simpl; [apply untimed_ret|].
    repeat (apply untimed_bind; [apply untimed_print|]; intros _).
    apply untimed_exit. }
  intros _. apply untimed_bind; [|intros _; apply untimed_print].
  apply adds_nothing. intros st. unfold makedirs.
  by destruct (fs st !! OUTPUT_DIR) as [[?|]|].
Qed.

Lemma untimed_run_nuclei_scan w target : adds_untimed (run_nuclei_scan w target).
Proof.
  unfold run_nuclei_scan.
  apply untimed_bind; [apply untimed_print|]. intros _.
  apply untimed_try.
  - intros st.
    apply (untimed_bind
             (subprocess_run _ None (nuclei_scan w target (count is_scan st)) _)).
    + apply untimed_subprocess.
    + intros _. apply untimed_bind; [apply untimed_print|].
      intros _. apply untimed_ret.
  - intros _. apply untimed_bind; [apply untimed_print|].
    intros _. apply untimed_exit.
Qed.

Lemma untimed_generate_report w p : adds_untimed (generate_report_from_file w p).
Proof.
  unfold generate_report_from_file.
  apply untimed_bind; [apply untimed_print|]. intros _.
  apply untimed_bind.
  - apply untimed_try; [|intros e; apply untimed_ret].
    apply untimed_bind; [|intros c; apply untimed_ret].
    apply adds_nothing. intros st. unfold read_file.
    by destruct (fs st !! p) as [[bytes|]|]; [destruct (Codec.decode bytes)| |].
  - intros [err|content]; [apply untimed_ret|].
    apply untimed_try; [|intros e; apply untimed_ret].
    apply untimed_bind.
    + unfold generate_content.
      apply untimed_bind; [by apply untimed_record|]. intros _.
      destruct (gemini w _); [apply untimed_raise|apply untimed_ret].
    + intros r. apply untimed_bind; [apply untimed_print|]. intros _.
      apply untimed_bind; [|intros text; apply untimed_ret].
      destruct r; [apply untimed_ret|apply untimed_raise].
Qed.

Lemma untimed_save_report w text base : adds_untimed (save_report_to_pdf w text base).
Proof.
  unfold save_report_to_pdf.
  apply untimed_bind; [apply untimed_print|]. intros _.
  apply untimed_bind.
  { apply adds_nothing. intros st. unfold write_file.
    by destruct (open_for_writing _ _). }
  intros _. apply untimed_bind; [apply untimed_print|]. intros _.
  apply untimed_try; [|intros e; apply untimed_print].
  apply untimed_bind; [apply untimed_subprocess|]. intros _.
  apply untimed_bind; [|intros _; apply untimed_print].
  apply adds_nothing. intros st. unfold remove.
  by destruct (fs st !! _) as [[?|]|].
Qed.

Lemma untimed_main w target : adds_untimed (main w target).
Proof.
  unfold main.
  apply untimed_bind; [apply untimed_verify_setup|]. intros _.
  apply untimed_bind; [apply untimed_run_nuclei_scan|]. intros scan_file.
  apply untimed_bind; [apply untimed_generate_report|]. intros report_md.
  destruct (Str.contains "Error" report_md);
    [apply untimed_print|apply untimed_save_report].
Qed.

End Untimed.

Lemma main_scan_not_started w target st why :
  setup_ok w st = true ->
  nuclei_scan w target (count is_scan st) = NotStarted why ->
  exists st', main w target st = (st', Raise (Exn OSError why))
    /\ calls st' = calls st ++ [version_probe; scan_call w target].
Proof.
  intros Hok Hscan. unfold main.
  rewrite (bind_return _ _ _ _ _ (verify_setup_ok w st Hok)).
  rewrite <- (count_after_setup is_scan st eq_refl) in Hscan.
  eexists. split.
  - apply bind_raise. apply (run_nuclei_scan_not_started _ _ _ _ Hscan).
  - unfold after_setup. simpl. by rewrite <- app_assoc.
Qed.

(** Once the startup check has passed, the scan is the second call of the
    run, whatever the scanner does. *)
Lemma main_scan_started w target st :
  setup_ok w st = true ->
  exists l,
    calls (main w target st).1 =
      calls st ++ [version_probe; scan_call w target] ++ l.
Proof.
  intros Hok.
  destruct (nuclei_scan w target (count is_scan st)) as [code secs|why|] eqn:Hscan.
  - destruct (decide (code = 0)) as [->|Hcode].
    + rewrite (main_after_scan _ _ _ _ Hok Hscan).
      set (rest := bind _ _).
      assert (adds_untimed rest) as Hrest.
      { apply untimed_bind; [apply untimed_generate_report|]. intros r.
        destruct (Str.contains "Error" r);
          [apply untimed_print|apply untimed_save_report]. }
      destruct (Hrest (scanned w target st)) as (l & -> & _).
      exists l. unfold scanned, after_setup. simpl. by rewrite <- !app_assoc.
    + destruct (main_scan_failure _ _ _ _ _ Hok Hscan Hcode) as [out ->].
      exists []. done.
  - destruct (main_scan_not_started _ _ _ _ Hok Hscan) as (st' & -> & E).
    exists []. simpl. by rewrite E.
  - destruct (main_scan_forever _ _ _ Hok Hscan) as (st' & -> & E).
    exists []. simpl. by rewrite E.
Qed.

(** * The claims *)

(** ** Startup *)

(** C2: if the scanner binary cannot be executed ([nuclei -version]
    cannot be started or exits with a non-zero status), or it can and the
    template directory does not exist, the run ends in the startup check
    with exit status 1: the version probe is the only process it has
    started, no scan among them, and the files are as they were. *)
Theorem startup_failure_is_fatal w target st :
  startup_fails w st ->
  exists st',
    main w target st = (st', SystemExit 1)
    /\ exit_status (main w target st).2 = Some 1
    /\ calls st' = calls st ++ [version_probe]
    /\ count is_scan st' = count is_scan st
    /\ fs st' = fs st.
Proof.
  intros Hbad.
  destruct (main_startup_failure w target st Hbad) as [out E].
  eexists. split; [exact E|]. rewrite E. repeat split.
  rewrite (count_snoc is_scan _ _ (fs st) (stdout st)).
  destruct st; simpl; lia.
Qed.

Lemma startup_failure_is_fatal_witness :
  exists st',
    main no_scanner "https://a.test" Kali.boot = (st', SystemExit 1)
    /\ exit_status (main no_scanner "https://a.test" Kali.boot).2 = Some 1
    /\ calls st' = calls Kali.boot ++ [version_probe]
    /\ count is_scan st' = count is_scan Kali.boot
    /\ fs st' = fs Kali.boot.
Proof. apply startup_failure_is_fatal. left. reflexivity. Defined.

(** ** Retries *)

(** C5, as the script has it: a scan that ends with a non-zero status is
    not tried again.  The scanner has been started once, the remote model
    has not been called, and the whole run ends with exit status 1. *)
Theorem failed_scan_is_not_retried w target st code secs :
  setup_ok w st = true ->
  nuclei_scan w target (count is_scan st) = Exits code secs ->
  code <> 0 ->
  exists st',
    main w target st = (st', SystemExit 1)
    /\ count is_scan st' = S (count is_scan st)
    /\ count is_generate st' = count is_generate st.
Proof.
  intros Hok Hscan Hcode.
  destruct (main_scan_failure _ _ _ _ _ Hok Hscan Hcode) as [out E].
  eexists. split; [exact E|].
  change [version_probe; scan_call w target]
    with ([version_probe] ++ [scan_call w target]).
  rewrite app_assoc.
  rewrite !(count_snoc _ _ _ (fs st) (stdout st)).
  destruct st; simpl; lia.
Qed.

Lemma failed_scan_is_not_retried_witness :
  exists st',
    main flaky_scanner "https://a.test" Kali.boot = (st', SystemExit 1)
    /\ count is_scan st' = S (count is_scan Kali.boot)
    /\ count is_generate st' = count is_generate Kali.boot.
Proof.
  apply (failed_scan_is_not_retried flaky_scanner _ _ 1 5);
    [reflexivity | reflexivity | discriminate].
Defined.

(** C5 fails as stated: with a scanner that fails once and would then
    succeed, the run starts one scan, not two, and ends with status 1. *)
Lemma retry_never_happens :
  nuclei_scan flaky_scanner "https://a.test" 1 = Exits 0 30
  /\ (main flaky_scanner "https://a.test" Kali.boot).2 = SystemExit 1
  /\ filter (fun c => is_scan c = true)
       (calls (main flaky_scanner "https://a.test" Kali.boot).1)
     = [scan_call flaky_scanner "https://a.test"].
Proof. vm_compute. repeat split. Qed.

(** ** Timeouts *)

(** C6, as the script has it: for every target the scanner is started
    without a timeout, as is every other process of the run; and when the
    scanner never exits, the run never ends, for nothing stops the
    scanner. *)
Theorem scanner_runs_without_timeout w target st :
  setup_ok w st = true ->
  (exists l,
      calls (main w target st).1 = calls st ++ l
      /\ In (Spawn (scan_cmd w target (output_file w)) None) l
      /\ Forall untimed l)
  /\ (nuclei_scan w target (count is_scan st) = Forever ->
      (main w target st).2 = Hang
      /\ exit_status (main w target st).2 = None).
Proof.
  intros Hok. split.
  - destruct (untimed_main w target st) as (l & E & F).
    destruct (main_scan_started w target st Hok) as [l' E'].
    exists l. repeat split; [done| |done].
    rewrite E in E'. apply app_inv_head in E'. subst l.
    right. by left.
  - intros Hscan.
    destruct (main_scan_forever _ _ _ Hok Hscan) as (st' & -> & _). done.
Qed.

Lemma scanner_runs_without_timeout_witness :
  (exists l,
      calls (main hung_scanner "https://a.test" Kali.boot).1 = calls Kali.boot ++ l
      /\ In (Spawn (scan_cmd hung_scanner "https://a.test" (output_file hung_scanner))
               None) l
      /\ Forall untimed l)
  /\ (main hung_scanner "https://a.test" Kali.boot).2 = Hang
  /\ exit_status (main hung_scanner "https://a.test" Kali.boot).2 = None.
Proof.
  destruct (scanner_runs_without_timeout hung_scanner "https://a.test" Kali.boot)
    as [Hcalls Hhang]; [reflexivity|].
  split; [exact Hcalls|]. apply Hhang. reflexivity.
Defined.

(** C6 fails as stated: the scan is started with no timeout at all, and a
    scanner that never exits leaves the run waiting for it for ever. *)
Lemma hung_scanner_hangs_the_run :
  last (calls (main hung_scanner "https://a.test" Kali.boot).1)
    = Some (Spawn ["nuclei"; "-u"; "https://a.test"; "-t";
                   "/home/kali/nuclei-templates"; "-silent"; "-o";
                   "nuclei_scans/scan_20240101_120000.json"] None)
  /\ (main hung_scanner "https://a.test" Kali.boot).2 = Hang.
Proof. vm_compute. split; reflexivity. Qed.

(** ** The files of the report *)

(** C4: for every report text whose Markdown file could be written, when
    the converter fails (it exits with a non-zero status, or cannot be
    started), the Markdown file is on disk afterwards with the report in
    it, and the failure reaches the user: either as a printed
    [Failed to convert to PDF] line carrying the error, or as an exception
    that leaves the function. *)
Theorem renderer_failure_keeps_markdown w text base st :
  open_for_writing (fs st) (base +:+ ".md") = None ->
  fails (pandoc w text) = true ->
  exists st' o,
    save_report_to_pdf w text base st = (st', o)
    /\ fs st' !! (base +:+ ".md") = Some (File text)
    /\ ((exists e,
            class_of e = CalledProcessError
            /\ o = Return tt
            /\ last (stdout st') = Some ("❌ Failed to convert to PDF: " +:+ str e))
        \/ (exists e, o = Raise e)).
Proof.
  intros Hw Hfail.
  destruct (pandoc w text) as [code secs|why|] eqn:Hp; [| |done].
  - assert (code <> 0) as Hcode.
    { intros ->. done. }
    rewrite (save_conversion_failed _ _ _ _ _ _ Hw Hp Hcode).
    eexists _, _. split; [done|]. simpl. split; [apply lookup_insert_eq|].
    left.
    exists (called_process_error (pandoc_cmd (base +:+ ".md") (base +:+ ".pdf")) code).
    repeat split. by rewrite last_app.
  - rewrite (save_converter_missing _ _ _ _ _ Hw Hp).
    eexists _, _. split; [done|]. simpl. split; [apply lookup_insert_eq|].
    right. by eexists.
Qed.

Lemma renderer_failure_keeps_markdown_witness :
  exists st' o,
    save_report_to_pdf broken_pandoc "# Report" "/home/kali/Desktop/gemini_report"
      Kali.boot = (st', o)
    /\ fs st' !! "/home/kali/Desktop/gemini_report.md" = Some (File "# Report")
    /\ ((exists e,
            class_of e = CalledProcessError
            /\ o = Return tt
            /\ last (stdout st') = Some ("❌ Failed to convert to PDF: " +:+ str e))
        \/ (exists e, o = Raise e)).
Proof.
  apply (renderer_failure_keeps_markdown broken_pandoc "# Report"
           "/home/kali/Desktop/gemini_report" Kali.boot);
    reflexivity.
Defined.

(** C7, as the script has it: when the Markdown file could be written and
    the converter exits with status 0, the rendered document is on disk at
    the report path and the Markdown file is not: the script removes it. *)
Theorem markdown_is_removed_after_conversion w text base st secs :
  open_for_writing (fs st) (base +:+ ".md") = None ->
  pandoc w text = Exits 0 secs ->
  exists st',
    save_report_to_pdf w text base st = (st', Return tt)
    /\ fs st' !! (base +:+ ".pdf") = Some (File (pandoc_pdf w text))
    /\ fs st' !! (base +:+ ".md") = None.
Proof.
  intros Hw Hp. rewrite (save_converted _ _ _ _ _ Hw Hp).
  eexists. split; [done|]. simpl. split.
  - rewrite lookup_delete_ne by apply md_is_not_pdf. apply lookup_insert_eq.
  - apply lookup_delete_eq.
Qed.

Lemma markdown_is_removed_after_conversion_witness :
  exists st',
    save_report_to_pdf Kali.healthy "# Report" "/home/kali/Desktop/gemini_report"
      Kali.boot = (st', Return tt)
    /\ fs st' !! "/home/kali/Desktop/gemini_report.pdf"
       = Some (File (pandoc_pdf Kali.healthy "# Report"))
    /\ fs st' !! "/home/kali/Desktop/gemini_report.md" = None.
Proof.
  apply (markdown_is_removed_after_conversion Kali.healthy "# Report"
           "/home/kali/Desktop/gemini_report" Kali.boot 2);
    reflexivity.
Defined.

(** C7 fails as stated: after a run in which everything works, the
    rendered document is at the report path and the Markdown file is
    gone. *)
Lemma markdown_is_not_retained :
  (main Kali.healthy "https://a.test" Kali.boot).2 = Return tt
  /\ fs (main Kali.healthy "https://a.test" Kali.boot).1
       !! "/home/kali/Desktop/gemini_report.pdf"
     = Some (File "%PDF-1.5 # Security report
- critical: CVE-2021-41773")
  /\ fs (main Kali.healthy "https://a.test" Kali.boot).1
       !! "/home/kali/Desktop/gemini_report.md"
     = None.
Proof. vm_compute. repeat split. Qed.

(** ** Summaries *)

Lemma read_error_None w files p :
  read_error w files p = None -> exists content, file_text files p = Some content.
Proof.
  unfold read_error, file_text.
  destruct (files !! p) as [[bytes|]|]; try done.
  destruct (Codec.decode bytes); [eauto|done].
Qed.

Lemma file_text_Some w files p content :
  file_text files p = Some content -> read_error w files p = None.
Proof.
  unfold read_error, file_text.
  destruct (files !! p) as [[bytes|]|]; try done. by intros ->.
Qed.

(** Whatever happens, the function returns a text, and it has called the
    remote model at most once and touched no file. *)
Lemma generate_report_total w p st :
  exists out l report,
    generate_report_from_file w p st
      = (State (fs st) out (calls st ++ l), Return report)
    /\ (l = [] \/ exists prompt, l = [GenerateContent prompt])
    /\ (summary_fails w (fs st) p -> Str.startswith "Error" report = true).
Proof.
  destruct (read_error w (fs st) p) as [e|] eqn:Hread.
  - rewrite (report_unreadable _ _ _ _ Hread).
    eexists _, [], _. rewrite app_nil_r. split; [done|]. split; [by left|done].
  - destruct (read_error_None _ _ _ Hread) as [content Hp].
    destruct (answer w (prompt_of content)) as [e|text] eqn:Hg.
    + destruct (report_model_failed _ _ _ _ _ Hp Hg) as [out ->].
      eexists _, _, _. split; [done|]. split; [right; by eexists|done].
    + rewrite (report_generated _ _ _ _ _ Hp Hg).
      eexists _, _, _. split; [done|]. split; [right; by eexists|].
      intros [[e He]|(c & e & Hc & He)].
      * by rewrite Hread in He.
      * rewrite Hp in Hc. injection Hc as <-. by rewrite Hg in He.
Qed.

(** A summary that could not be made is printed, and the run ends there
    without an error: nothing is saved and nothing is converted. *)
Lemma summary_failure_is_printed w target st secs :
  setup_ok w st = true ->
  nuclei_scan w target (count is_scan st) = Exits 0 secs ->
  summary_fails w (fs (scanned w target st)) (output_file w) ->
  exists st1 report,
    generate_report_from_file w (output_file w) (scanned w target st)
      = (st1, Return report)
    /\ Str.startswith "Error" report = true
    /\ main w target st
       = (State (fs st1) (stdout st1 ++ [report]) (calls st1), Return tt).
Proof.
  intros Hok Hscan Hfail.
  destruct (generate_report_total w (output_file w) (scanned w target st))
    as (out & l & report & E & _ & Herr).
  specialize (Herr Hfail).
  eexists _, report. split; [exact E|]. split; [done|].
  rewrite (main_after_scan _ _ _ _ Hok Hscan).
  rewrite (bind_return _ _ _ _ _ E).
  by rewrite (startswith_contains _ _ Herr).
Qed.

(** C3, as the script has it: for every scan file that is there, the
    empty one included, when its bytes can be read as text the remote
    model is called exactly once, with the prompt built around that text
    (the bytes decoded, the ends of lines as text mode gives them), and
    the summary is the answer of the model without the white space around
    it, or the text of the error when the call raises.  When the bytes
    cannot be read as text the model is not called and the summary is the
    text of the read error.  There is no summary of the script's own. *)
Theorem every_scan_is_sent_to_the_model w p st bytes :
  fs st !! p = Some (File bytes) ->
  (forall content,
      Codec.decode bytes = Some content ->
      exists st',
        generate_report_from_file w p st
          = (st', Return match answer w (prompt_of content) with
                         | inl e => "Error communicating with Gemini: " +:+ str e
                         | inr text => Str.strip text
                         end)
        /\ calls st' = calls st ++ [GenerateContent (prompt_of content)]
        /\ count is_generate st' = S (count is_generate st))
  /\ (Codec.decode bytes = None ->
      exists st',
        generate_report_from_file w p st
          = (st', Return ("Error reading file: " +:+ codec_error w bytes))
        /\ calls st' = calls st
        /\ count is_generate st' = count is_generate st).
Proof.
  intros Hfile. split.
  - intros content Hdecode.
    assert (file_text (fs st) p = Some content) as Hp.
    { unfold file_text. by rewrite Hfile. }
    destruct (answer w (prompt_of content)) as [e|text] eqn:Hg.
    + destruct (report_model_failed _ _ _ _ _ Hp Hg) as [out ->].
      eexists. split; [done|]. split; [done|].
      rewrite (count_snoc _ _ _ (fs st) (stdout st)). destruct st; simpl; lia.
    + rewrite (report_generated _ _ _ _ _ Hp Hg).
      eexists. split; [done|]. split; [done|].
      rewrite (count_snoc _ _ _ (fs st) (stdout st)). destruct st; simpl; lia.
  - intros Hdecode.
    assert (read_error w (fs st) p
            = Some (Exn OtherException (codec_error w bytes))) as Hread.
    { unfold read_error. by rewrite Hfile, Hdecode. }
    rewrite (report_unreadable _ _ _ _ Hread).
    eexists. split; [done|]. split; [done|]. by destruct st.
Qed.

(** An empty scan file, one with the line ends of DOS in it, and one
    that is not UTF-8. *)
Lemma every_scan_is_sent_to_the_model_witness :
  (exists st',
      generate_report_from_file Kali.healthy
        "nuclei_scans/scan_20240101_120000.json" empty_scan
        = (st', Return match answer Kali.healthy (prompt_of EmptyString) with
                       | inl e => "Error communicating with Gemini: " +:+ str e
                       | inr text => Str.strip text
                       end)
      /\ calls st' = calls empty_scan ++ [GenerateContent (prompt_of EmptyString)]
      /\ count is_generate st' = S (count is_generate empty_scan))
  /\ (exists st',
        generate_report_from_file Kali.healthy
          "nuclei_scans/scan_20240101_120000.json" dos_scan
          = (st', Return (Str.strip Kali.report))
        /\ calls st'
           = [GenerateContent
                (prompt_of (Str.bytes [91; 97; 93; 10; 91; 98; 93]%nat))])
  /\ (exists st',
        generate_report_from_file Kali.healthy
          "nuclei_scans/scan_20240101_120000.json" raw_scan
          = (st', Return ("Error reading file: "
                            +:+ codec_error Kali.healthy
                                  (Str.bytes [91; 255; 93]%nat)))
        /\ calls st' = []).
Proof.
  split; [|split].
  - destruct (every_scan_is_sent_to_the_model Kali.healthy
                "nuclei_scans/scan_20240101_120000.json" empty_scan EmptyString
                eq_refl) as [Hdecoded _].
    apply (Hdecoded EmptyString). reflexivity.
  - destruct (every_scan_is_sent_to_the_model Kali.healthy
                "nuclei_scans/scan_20240101_120000.json" dos_scan
                (Str.bytes [91; 97; 93; 13; 10; 91; 98; 93]%nat) eq_refl)
      as [Hdecoded _].
    destruct (Hdecoded (Str.bytes [91; 97; 93; 10; 91; 98; 93]%nat) eq_refl)
      as (st' & E & Hcalls & _).
    exists st'. split; [exact E|exact Hcalls].
  - destruct (every_scan_is_sent_to_the_model Kali.healthy
                "nuclei_scans/scan_20240101_120000.json" raw_scan
                (Str.bytes [91; 255; 93]%nat) eq_refl)
      as [_ Hraw].
    destruct (Hraw eq_refl) as (st' & E & Hcalls & _).
    exists st'. split; [exact E|exact Hcalls].
Defined.

(** C3 fails as stated: for a scan file with no findings in it the remote
    model is called once, and the summary is what the model answers. *)
Lemma empty_scan_is_sent_to_the_model :
  fs empty_scan !! "nuclei_scans/scan_20240101_120000.json" = Some (File EmptyString)
  /\ calls (generate_report_from_file Kali.healthy
              "nuclei_scans/scan_20240101_120000.json" empty_scan).1
     = [GenerateContent (prompt_of EmptyString)]
  /\ (generate_report_from_file Kali.healthy
        "nuclei_scans/scan_20240101_120000.json" empty_scan).2
     = Return "# Security report
- critical: CVE-2021-41773".
Proof. vm_compute. repeat split. Qed.

(** C10: [generate_report_from_file] always returns a text.  When the
    scan file cannot be read or the call to the remote model raises, the
    text begins with [Error]; and in a run that got as far as the summary,
    that text is printed as the last line, the run ends normally, and the
    converter is not started: the calls and the files are as the summary
    left them. *)
Theorem report_failures_come_back_as_text w p st target :
  (exists st' report,
      generate_report_from_file w p st = (st', Return report)
      /\ (summary_fails w (fs st) p -> Str.startswith "Error" report = true))
  /\ (setup_ok w st = true ->
      (exists secs, nuclei_scan w target (count is_scan st) = Exits 0 secs) ->
      summary_fails w (fs (scanned w target st)) (output_file w) ->
      exists st1 st' report,
        generate_report_from_file w (output_file w) (scanned w target st)
          = (st1, Return report)
        /\ Str.startswith "Error" report = true
        /\ main w target st = (st', Return tt)
        /\ last (stdout st') = Some report
        /\ calls st' = calls st1
        /\ count is_pandoc st' = count is_pandoc st
        /\ fs st' = fs (scanned w target st)).
Proof.
  split.
  - destruct (generate_report_total w p st) as (out & l & report & E & _ & H).
    by eexists _, _.
  - intros Hok [secs Hscan] Hfail.
    destruct (summary_failure_is_printed _ _ _ _ Hok Hscan Hfail)
      as (st1 & report & E & Herr & Hmain).
    eexists st1, _, report. split; [done|]. split; [done|].
    split; [exact Hmain|]. simpl. split; [apply last_snoc|]. split; [done|].
    destruct (generate_report_total w (output_file w) (scanned w target st))
      as (out & l & report' & E' & Hl & _).
    rewrite E in E'. injection E' as -> _.
    split; [|done]. unfold count. simpl.
    unfold version_probe. rewrite <- !app_assoc, !filter_app, !length_app.
    destruct Hl as [->|[prompt ->]]; simpl; lia.
Qed.

Lemma report_failures_come_back_as_text_witness :
  exists st1 st' report,
    generate_report_from_file no_model (output_file no_model)
      (scanned no_model "https://a.test" Kali.boot)
      = (st1, Return report)
    /\ Str.startswith "Error" report = true
    /\ main no_model "https://a.test" Kali.boot = (st', Return tt)
    /\ last (stdout st') = Some report
    /\ calls st' = calls st1
    /\ count is_pandoc st' = count is_pandoc Kali.boot
    /\ fs st' = fs (scanned no_model "https://a.test" Kali.boot).
Proof.
  apply (proj2 (report_failures_come_back_as_text no_model EmptyString Kali.boot
                  "https://a.test")).
  - reflexivity.
  - exists 30. reflexivity.
  - right. exists Kali.findings, (Exn OtherException "429 Resource has been exhausted").
    split; reflexivity.
Defined.

(** ** The test for [Error] *)

(** C9: in a run that got as far as the summary, the report counts as
    failed exactly when its text has [Error] somewhere in it.  Then the
    text is printed, the run ends normally, and nothing is saved or
    converted.  Otherwise the run goes on as [save_report_to_pdf] on that
    text and the report path: when the Markdown file cannot be written
    the run ends with that exception; when it can, the one call that
    follows is the converter on the Markdown and the PDF path, and
    afterwards either the PDF made of the report is at the path and the
    Markdown file is gone (the converter exited with status 0), or the
    Markdown file holds the report.  What the text is about plays no
    part, so a report that mentions [Error] is not saved. *)
Theorem error_in_the_text_decides w target st secs :
  setup_ok w st = true ->
  nuclei_scan w target (count is_scan st) = Exits 0 secs ->
  exists st1 report_md,
    generate_report_from_file w (output_file w) (scanned w target st)
      = (st1, Return report_md)
    /\ ((exists pre post, report_md = pre +:+ "Error" +:+ post) ->
        main w target st
          = (State (fs st1) (stdout st1 ++ [report_md]) (calls st1), Return tt)
        /\ fs st1 = fs (scanned w target st)
        /\ count is_pandoc st1 = count is_pandoc st)
    /\ (~ (exists pre post, report_md = pre +:+ "Error" +:+ post) ->
        main w target st = save_report_to_pdf w report_md (REPORT_PATH w) st1
        /\ (forall e,
              open_for_writing (fs st1) (REPORT_PATH w +:+ ".md") = Some e ->
              main w target st
              = (State (fs st1) (stdout st1 ++ ["📝 Saving Markdown report..."])
                   (calls st1),
                 Raise e))
        /\ (open_for_writing (fs st1) (REPORT_PATH w +:+ ".md") = None ->
            last (calls (main w target st).1) = Some (convert_call (REPORT_PATH w))
            /\ calls (main w target st).1
               = calls st1
                 ++ [Spawn ["pandoc"; REPORT_PATH w +:+ ".md"; "-o";
                            REPORT_PATH w +:+ ".pdf"] None]
            /\ (forall secs',
                  pandoc w report_md = Exits 0 secs' ->
                  (main w target st).2 = Return tt
                  /\ fs (main w target st).1 !! (REPORT_PATH w +:+ ".pdf")
                     = Some (File (pandoc_pdf w report_md))
                  /\ fs (main w target st).1 !! (REPORT_PATH w +:+ ".md") = None)
            /\ ((forall secs', pandoc w report_md <> Exits 0 secs') ->
                fs (main w target st).1 !! (REPORT_PATH w +:+ ".md")
                = Some (File report_md)))).
Proof.
  intros Hok Hscan.
  destruct (generate_report_total w (output_file w) (scanned w target st))
    as (out & l & report_md & E & Hl & _).
  eexists _, report_md. split; [exact E|].
  rewrite (main_after_scan _ _ _ _ Hok Hscan), (bind_return _ _ _ _ _ E).
  split.
  - intros Hsub. apply contains_spec in Hsub. rewrite Hsub.
    split; [done|]. split; [done|].
    unfold count. simpl.
    unfold version_probe. rewrite <- !app_assoc, !filter_app, !length_app.
    destruct Hl as [->|[prompt ->]]; simpl; lia.
  - intros Hsub.
    destruct (Str.contains "Error" report_md) eqn:Hc.
    { destruct Hsub. by apply contains_spec. }
    split; [done|]. split.
    { intros e Hw. by rewrite (save_not_writable _ _ _ _ _ Hw). }
    intros Hw.
    destruct (pandoc w report_md) as [code secs'|why|] eqn:Hp.
    + destruct (decide (code = 0)) as [->|Hcode].
      * rewrite (save_converted _ _ _ _ _ Hw Hp). cbn [fst snd fs calls].
        split; [apply last_snoc|]. split; [done|]. split.
        -- intros _ _. split; [done|]. split.
           ++ rewrite lookup_delete_ne by apply md_is_not_pdf.
              apply lookup_insert_eq.
           ++ apply lookup_delete_eq.
        -- intros Hbad. by destruct (Hbad secs').
      * rewrite (save_conversion_failed _ _ _ _ _ _ Hw Hp Hcode).
        cbn [fst snd fs calls].
        split; [apply last_snoc|]. split; [done|]. split.
        -- intros s' [= ? ?]. done.
        -- intros _. apply lookup_insert_eq.
    + rewrite (save_converter_missing _ _ _ _ _ Hw Hp). cbn [fst snd fs calls].
      split; [apply last_snoc|]. split; [done|]. split; [done|].
      intros _. apply lookup_insert_eq.
    + rewrite (save_converter_forever _ _ _ _ Hw Hp). cbn [fst snd fs calls].
      split; [apply last_snoc|]. split; [done|]. split; [done|].
      intros _. apply lookup_insert_eq.
Qed.

(** The model answers with a report about the error handling of the
    target: it is printed.  The model answers with a report that has no
    [Error] in it: it is saved and converted. *)
Lemma error_in_the_text_decides_witness :
  (exists st1,
      main error_page_report "https://a.test" Kali.boot
        = (State (fs st1)
             (stdout st1 ++ ["# Security report
- medium: verbose Error pages disclose stack traces"])
             (calls st1),
           Return tt)
      /\ fs st1 = fs (scanned error_page_report "https://a.test" Kali.boot)
      /\ count is_pandoc st1 = count is_pandoc Kali.boot)
  /\ (last (calls (main Kali.healthy "https://a.test" Kali.boot).1)
      = Some (convert_call (REPORT_PATH Kali.healthy))
      /\ (main Kali.healthy "https://a.test" Kali.boot).2 = Return tt
      /\ fs (main Kali.healthy "https://a.test" Kali.boot).1
           !! (REPORT_PATH Kali.healthy +:+ ".pdf")
         = Some (File (pandoc_pdf Kali.healthy (Str.strip Kali.report)))
      /\ fs (main Kali.healthy "https://a.test" Kali.boot).1
           !! (REPORT_PATH Kali.healthy +:+ ".md") = None).
Proof.
  split.
  - destruct (error_in_the_text_decides error_page_report "https://a.test"
                Kali.boot 30 eq_refl eq_refl)
      as (st1 & report_md & E & Hprinted & _).
    vm_compute in E. injection E as <- <-.
    exists (generate_report_from_file error_page_report
              (output_file error_page_report)
              (scanned error_page_report "https://a.test" Kali.boot)).1.
    apply Hprinted.
    exists "# Security report
- medium: verbose ", " pages disclose stack traces".
    reflexivity.
  - destruct (error_in_the_text_decides Kali.healthy "https://a.test"
                Kali.boot 30 eq_refl eq_refl)
      as (st1 & report_md & E & _ & Hsaved).
    vm_compute in E. injection E as <- <-.
    destruct Hsaved as (_ & _ & Hconv).
    { intros Hsub. apply contains_spec in Hsub. discriminate Hsub. }
    destruct Hconv as (Hlast & _ & Hdone & _); [reflexivity|].
    split; [exact Hlast|]. apply (Hdone 2). reflexivity.
Defined.

(** A scan that finds nothing and writes no file ends in the text of the
    read error, printed, with exit status 0. *)
Example silent_scan_is_a_read_error :
  let run := main (Kali.with_output (fun _ => None) Kali.healthy)
               "https://a.test" Kali.boot in
  last (stdout run.1)
    = Some "Error reading file: [Errno 2] No such file or directory: 'nuclei_scans/scan_20240101_120000.json'"
  /\ count is_generate run.1 = 0%nat
  /\ exit_status run.2 = Some 0.
Proof. vm_compute. repeat split. Qed.

(** Without a [Desktop] directory the Markdown file cannot be written: the
    exception is not caught and the converter is not started. *)
Example missing_desktop_is_not_caught :
  let run := main Kali.healthy "https://a.test"
               (State (delete "/home/kali/Desktop" Kali.files) [] []) in
  run.2 = Raise (enoent "/home/kali/Desktop/gemini_report.md")
  /\ count is_pandoc run.1 = 0%nat
  /\ exit_status run.2 = Some 1.
Proof. vm_compute. repeat split. Qed.

(** A report whose body mentions [Error] is printed and not saved. *)
Example report_about_errors_is_dropped :
  let run := main error_page_report "https://a.test" Kali.boot in
  run.2 = Return tt
  /\ last (stdout run.1) = Some "# Security report
- medium: verbose Error pages disclose stack traces"
  /\ fs run.1 !! "/home/kali/Desktop/gemini_report.md" = None
  /\ fs run.1 !! "/home/kali/Desktop/gemini_report.pdf" = None
  /\ count is_pandoc run.1 = 0%nat.
Proof. vm_compute. repeat split. Qed.

(** ** Exit statuses *)

Section ExitCodes.












End ExitCodes.

Section NoReport.

Implicit Types a b base : string.









End NoReport.





(** ** The command line *)





(** * Further properties *)


Section ErrorAndSpace.

Implicit Types s t c needle : string.

Lemma contains_cons_other a needle b s :
  Ascii.eqb a b = false ->
  Str.contains (String a needle) (String b s) = Str.contains (String a needle) s.
Proof. intros H. simpl. by rewrite H. Qed.

Lemma contains_skip a needle c s :
  avoids a c = true ->
  Str.contains (String a needle) (c +:+ s) = Str.contains (String a needle) s.
Proof.
  induction c as [|b c IH]; [done|].
  intros H. simpl in H. apply andb_true_iff in H as [Hb Hc].
  apply negb_true_iff in Hb.
  rewrite append_cons, contains_cons_other by done. auto.
Qed.

Lemma contains_lstrip_chars a needle fuel chars s :
  forallb (avoids a) chars = true ->
  Str.contains (String a needle) (Str.lstrip_chars fuel chars s)
  = Str.contains (String a needle) s.
Proof.
  intros Hall. revert s. induction fuel as [|fuel IH]; intros s; simpl; [done|].
  destruct (Str.leading chars s) as [n|] eqn:E; [|done].
  destruct (leading_Some _ _ _ E) as (c & rest & Hin & -> & ->).
  rewrite drop_append, IH. symmetry. apply contains_skip.
  by apply (proj1 (forallb_forall _ _) Hall).
Qed.

Lemma contains_rev needle s :
  Str.contains (Str.rev needle) (Str.rev s) = Str.contains needle s.
Proof.
  apply Bool.eq_true_iff_eq. rewrite !contains_spec. split.
  - intros (pre & post & E). exists (Str.rev post), (Str.rev pre).
    apply (f_equal Str.rev) in E.
    by rewrite rev_involutive, !rev_append, rev_involutive, append_assoc in E.
  - intros (pre & post & ->). exists (Str.rev post), (Str.rev pre).
    by rewrite !rev_append, append_assoc.
Qed.

(** Stripping takes no [Error] away and brings none in: no byte of a
    white space character is an [E] or an [r]. *)
Lemma contains_error_strip s :
  Str.contains "Error" (Str.strip s) = Str.contains "Error" s.
Proof.
  unfold Str.strip, Str.rstrip, Str.lstrip.
  set (t := Str.lstrip_chars _ Str.whitespace s).
  change (Str.contains (Str.rev "rorrE") (Str.rev (Str.lstrip_chars
            (String.length t) (map Str.rev Str.whitespace) (Str.rev t)))
          = Str.contains "Error" s).
  rewrite contains_rev, contains_lstrip_chars by (by vm_compute).
  change (Str.contains (Str.rev "Error") (Str.rev t) = Str.contains "Error" s).
  rewrite contains_rev. subst t.
  apply contains_lstrip_chars. by vm_compute.
Qed.

End ErrorAndSpace.

(** ** The summary *)

(** X6: when the scan file can be read as text, a summary that the
    remote model wrote comes back without white space at either end,
    whatever the model put around its text. *)
Theorem summary_has_no_space_around w p st content text :
  file_text (fs st) p = Some content ->
  answer w (prompt_of content) = inr text ->
  exists st' report,
    generate_report_from_file w p st = (st', Return report)
    /\ report = Str.strip text
    /\ starts_with_space report = false
    /\ ends_with_space report = false.
Proof.
  intros Hp Hg. rewrite (report_generated _ _ _ _ _ Hp Hg).
  eexists _, _. split; [done|]. split; [done|]. apply strip_is_clean.
Qed.

Lemma summary_has_no_space_around_witness :
  exists st' report,
    generate_report_from_file padded_report
      "nuclei_scans/scan_20240101_120000.json" empty_scan = (st', Return report)
    /\ report = "# Report"
    /\ starts_with_space report = false
    /\ ends_with_space report = false.
Proof.
  apply (summary_has_no_space_around padded_report
           "nuclei_scans/scan_20240101_120000.json" empty_scan EmptyString
           (nl +:+ nl +:+ "  # Report" +:+ Str.bytes [194; 160]%nat +:+ nl));
    reflexivity.
Defined.

(** X7: when the scan file can be read as text and the model answers
    with a text, whether the summary counts as failed is settled by that
    text as it came: stripping it neither removes nor adds an [Error]. *)
Theorem error_test_sees_the_raw_text w p st content text :
  file_text (fs st) p = Some content ->
  answer w (prompt_of content) = inr text ->
  exists st' report,
    generate_report_from_file w p st = (st', Return report)
    /\ Str.contains "Error" report = Str.contains "Error" text.
Proof.
  intros Hp Hg. rewrite (report_generated _ _ _ _ _ Hp Hg).
  eexists _, _. split; [done|]. apply contains_error_strip.
Qed.

Lemma error_test_sees_the_raw_text_witness :
  exists st' report,
    generate_report_from_file error_page_report
      "nuclei_scans/scan_20240101_120000.json" empty_scan = (st', Return report)
    /\ Str.contains "Error" report
       = Str.contains "Error" "# Security report
- medium: verbose Error pages disclose stack traces
".
Proof.
  apply (error_test_sees_the_raw_text error_page_report
           "nuclei_scans/scan_20240101_120000.json" empty_scan EmptyString);
    reflexivity.
Defined.

(** ** The startup check, once more *)

Lemma verify_setup_stops w st :
  setup_ok w st = false -> (verify_setup w st).2 <> Return tt.
Proof.
  unfold setup_ok, verify_setup, subprocess_run, path_exists, makedirs.
  step_monad.
  destruct (nuclei_version w) as [code secs|why|]; simpl; try done.
  destruct (code =? 0) eqn:Hc; simpl; [|done].
  apply Z.eqb_eq in Hc as ->. simpl.
  destruct (fs st !! TEMPLATES_DIR w) as [n|]; simpl; [|done].
  by destruct (fs st !! OUTPUT_DIR) as [[c|]|].
Qed.

(** X1: the startup check lets the run go on exactly when the scanner
    answers [-version] with status 0, the template directory is there,
    and the output directory is not taken by a file.  It then leaves the
    output directory in place as a directory and changes no other path;
    a directory that was there already is left as it was. *)
Theorem startup_check_passes_exactly_when_ok w st :
  ((verify_setup w st).2 = Return tt <-> setup_ok w st = true)
  /\ (setup_ok w st = true ->
      fs (verify_setup w st).1 !! OUTPUT_DIR = Some Dir
      /\ (forall p, p <> OUTPUT_DIR ->
            fs (verify_setup w st).1 !! p = fs st !! p)
      /\ (fs st !! OUTPUT_DIR = Some Dir -> fs (verify_setup w st).1 = fs st)).
Proof.
  split.
  - split.
    + intros H. destruct (setup_ok w st) eqn:E; [done|].
      by destruct (verify_setup_stops w st E).
    + intros H. by rewrite (verify_setup_ok w st H).
  - intros H. rewrite (verify_setup_ok w st H). simpl.
    unfold with_output_dir.
    unfold setup_ok in H. apply andb_true_iff in H as [_ H].
    destruct (fs st !! OUTPUT_DIR) as [[c|]|] eqn:E; try done.
    repeat split; [apply lookup_insert_eq| |done].
    intros p Hp. by apply lookup_insert_ne.
Qed.

Lemma startup_check_passes_exactly_when_ok_witness :
  fs (verify_setup Kali.healthy Kali.boot).1 !! OUTPUT_DIR = Some Dir
  /\ (forall p, p <> OUTPUT_DIR ->
        fs (verify_setup Kali.healthy Kali.boot).1 !! p = fs Kali.boot !! p)
  /\ (fs Kali.boot !! OUTPUT_DIR = Some Dir ->
      fs (verify_setup Kali.healthy Kali.boot).1 = fs Kali.boot).
Proof.
  apply (startup_check_passes_exactly_when_ok Kali.healthy Kali.boot).
  reflexivity.
Defined.

Section ScanFile.

Implicit Types s t d : string.

Lemma output_file_eq w :
  output_file w = "nuclei_scans/scan_" +:+ now w +:+ ".json".
Proof. reflexivity. Qed.

Lemma avoids_append a s t : avoids a (s +:+ t) = avoids a s && avoids a t.
Proof.
  induction s as [|b s IH]; [done|].
  rewrite append_cons. simpl. by rewrite IH, andb_assoc.
Qed.

Lemma avoids_rev a s : avoids a (Str.rev s) = avoids a s.
Proof.
  induction s as [|b s IH]; [done|].
  rewrite rev_cons, avoids_append, IH. simpl.
  rewrite andb_true_r. apply andb_comm.
Qed.

Lemma from_first_slash_cons b s :
  Path.from_first_slash (String b s)
  = if Ascii.eqb b "/" then String b s else Path.from_first_slash s.
Proof. reflexivity. Qed.

Lemma avoids_cons a b s :
  avoids a (String b s) = negb (Ascii.eqb a b) && avoids a s.
Proof. reflexivity. Qed.

Lemma from_first_slash_skips s t :
  avoids "/" s = true ->
  Path.from_first_slash (s +:+ String "/" t) = String "/" t.
Proof.
  induction s as [|b s IH]; [done|].
  rewrite avoids_cons. intros [Hb Hs]%andb_true_iff.
  apply negb_true_iff in Hb.
  rewrite append_cons, from_first_slash_cons, Ascii.eqb_sym, Hb. auto.
Qed.

Lemma dirname_output_file w :
  avoids "/" (now w) = true -> Path.dirname (output_file w) = OUTPUT_DIR.
Proof.
  intros H. rewrite output_file_eq. unfold Path.dirname.
  change ("nuclei_scans/scan_" +:+ now w +:+ ".json")
    with ("nuclei_scans" +:+ String "/" ("scan_" +:+ now w +:+ ".json")).
  rewrite rev_append, rev_cons, append_assoc.
  change (String "/" EmptyString +:+ Str.rev "nuclei_scans")
    with (String "/" (Str.rev "nuclei_scans")).
  rewrite from_first_slash_skips.
  - reflexivity.
  - rewrite avoids_rev, !avoids_append, H. reflexivity.
Qed.

End ScanFile.

(** X2: with a time stamp that has no slash in it, as [strftime] makes
    them, the scan file lies right in the output directory; so once the
    startup check has passed, the directory the scanner is to write into
    is there. *)
Theorem scan_file_lies_in_the_output_dir w st :
  avoids "/" (now w) = true ->
  Path.dirname (output_file w) = OUTPUT_DIR
  /\ (setup_ok w st = true ->
      fs (verify_setup w st).1 !! Path.dirname (output_file w) = Some Dir).
Proof.
  intros Hnow. rewrite (dirname_output_file w Hnow). split; [done|].
  intros H. rewrite (verify_setup_ok w st H). simpl.
  unfold with_output_dir.
  unfold setup_ok in H. apply andb_true_iff in H as [_ H].
  destruct (fs st !! OUTPUT_DIR) as [[c|]|] eqn:E; try done.
  apply lookup_insert_eq.
Qed.

Lemma scan_file_lies_in_the_output_dir_witness :
  Path.dirname (output_file Kali.healthy) = OUTPUT_DIR
  /\ fs (verify_setup Kali.healthy Kali.boot).1
       !! Path.dirname (output_file Kali.healthy) = Some Dir.
Proof.
  destruct (scan_file_lies_in_the_output_dir Kali.healthy Kali.boot)
    as [Hdir Hthere]; [reflexivity|].
  split; [exact Hdir|]. apply Hthere. reflexivity.
Defined.

(** X3: when the scanner and the templates are there but the name of the
    output directory is taken by a file, [os.makedirs] raises, and nothing
    catches it: the run ends with the exception (exit status 1) before
    any scan, and the files are as they were. *)
Theorem output_dir_taken_by_a_file w target st secs content :
  nuclei_version w = Exits 0 secs ->
  is_Some (fs st !! TEMPLATES_DIR w) ->
  fs st !! OUTPUT_DIR = Some (File content) ->
  exists st',
    main w target st = (st', Raise (eexist OUTPUT_DIR))
    /\ exit_status (main w target st).2 = Some 1
    /\ calls st' = calls st ++ [version_probe]
    /\ fs st' = fs st.
Proof.
  intros Hv Ht Ho.
  assert (exists out, verify_setup w st
            = (State (fs st) out (calls st ++ [version_probe]),
               Raise (eexist OUTPUT_DIR))) as [out E].
  { unfold verify_setup, subprocess_run, path_exists, makedirs. step_monad.
    rewrite Hv. simpl. rewrite bool_decide_true by done. simpl.
    rewrite Ho. eauto. }
  unfold main. rewrite (bind_raise _ _ _ _ _ E). eauto.
Qed.

Lemma output_dir_taken_by_a_file_witness :
  exists st',
    main Kali.healthy "https://a.test" output_dir_taken
      = (st', Raise (eexist OUTPUT_DIR))
    /\ exit_status (main Kali.healthy "https://a.test" output_dir_taken).2 = Some 1
    /\ calls st' = calls output_dir_taken ++ [version_probe]
    /\ fs st' = fs output_dir_taken.
Proof.
  apply (output_dir_taken_by_a_file Kali.healthy "https://a.test"
           output_dir_taken 1 "notes").
  - reflexivity.
  - by eexists.
  - reflexivity.
Defined.

(** X4: the startup check says what it misses.  Whatever makes the
    version probe fail, a missing binary or a non-zero status, the
    script prints that Nuclei was not found and how to install it, and
    does not look for the templates; when the probe works and the
    templates are missing, it prints where it looked for them and how to
    fetch them.  Both end with [exit(1)]. *)
Theorem startup_check_names_what_is_missing w st :
  (fails (nuclei_version w) = true ->
   verify_setup w st
   = (State (fs st)
        (stdout st ++ ["📦 Verifying Nuclei and template setup...";
                       "❌ Nuclei not found. Install with:";
                       "go install -v github.com/projectdiscovery/nuclei/v2/cmd/nuclei@latest"])
        (calls st ++ [version_probe]),
      SystemExit 1))
  /\ ((exists secs, nuclei_version w = Exits 0 secs) ->
      fs st !! TEMPLATES_DIR w = None ->
      verify_setup w st
      = (State (fs st)
           (stdout st ++ ["📦 Verifying Nuclei and template setup...";
                          "❌ Templates not found at " +:+ TEMPLATES_DIR w;
                          "Update templates using: nuclei -update-templates"])
           (calls st ++ [version_probe]),
         SystemExit 1)).
Proof.
  split.
  - intros Hf.
    unfold verify_setup, subprocess_run, path_exists, makedirs. step_monad.
    destruct (nuclei_version w) as [code secs|why|]; simpl in *; [| |done].
    + apply negb_true_iff in Hf. rewrite Hf. simpl. by rewrite <- !app_assoc.
    + by rewrite <- !app_assoc.
  - intros [secs Hv] Ht.
    unfold verify_setup, subprocess_run, path_exists, makedirs. step_monad.
    rewrite Hv. simpl. rewrite Ht. simpl. by rewrite <- !app_assoc.
Qed.

Lemma startup_check_names_what_is_missing_witness :
  last (stdout (verify_setup sick_scanner Kali.boot).1)
    = Some "go install -v github.com/projectdiscovery/nuclei/v2/cmd/nuclei@latest"
  /\ last (stdout (verify_setup Kali.healthy (State ∅ [] [])).1)
     = Some "Update templates using: nuclei -update-templates".
Proof.
  destruct (startup_check_names_what_is_missing sick_scanner Kali.boot)
    as [Hprobe _].
  destruct (startup_check_names_what_is_missing Kali.healthy (State ∅ [] []))
    as [_ Htemplates].
  split.
  - rewrite Hprobe; reflexivity.
  - rewrite Htemplates; [reflexivity|by exists 1|reflexivity].
Defined.

(** ** Scans *)

(** X5: the name of the scan file is made from the time alone.  Two
    scans that work, of whatever targets, within the same second are
    given the same file, and what the first one found is no longer in it
    once the second has written its own. *)
Theorem scans_of_one_second_share_a_file w first second st secs1 secs2 found :
  nuclei_scan w first (count is_scan st) = Exits 0 secs1 ->
  nuclei_scan w second (S (count is_scan st)) = Exits 0 secs2 ->
  nuclei_output w second = Some found ->
  exists st',
    two_scans w first second st = (st', Return (output_file w, output_file w))
    /\ fs st' !! output_file w = Some (File found)
    /\ count is_scan st' = S (S (count is_scan st)).
Proof.
  intros H1 H2 Hout. unfold two_scans.
  rewrite (bind_return _ _ _ _ _ (run_nuclei_scan_ok _ _ _ _ H1)).
  set (st1 := State _ _ _).
  assert (count is_scan st1 = S (count is_scan st)) as Hc.
  { unfold st1. rewrite (count_snoc _ _ _ (fs st) (stdout st)).
    destruct st; simpl; lia. }
  rewrite <- Hc in H2.
  rewrite (bind_return _ _ _ _ _ (run_nuclei_scan_ok _ _ _ _ H2)).
  eexists. split; [reflexivity|]. simpl. split.
  - unfold scan_effect at 1. rewrite Hout. apply lookup_insert_eq.
  - rewrite (count_snoc _ _ _ (fs st1) (stdout st1)). simpl.
    change (count is_scan st1 + 1 = S (S (count is_scan st)))%nat. lia.
Qed.

Lemma scans_of_one_second_share_a_file_witness :
  exists st',
    two_scans two_targets "https://a.test" "https://b.test" Kali.boot
      = (st', Return (output_file two_targets, output_file two_targets))
    /\ fs st' !! output_file two_targets = Some (File "[info] https://b.test")
    /\ count is_scan st' = S (S (count is_scan Kali.boot)).
Proof.
  apply (scans_of_one_second_share_a_file two_targets "https://a.test"
           "https://b.test" Kali.boot 30 30);
    reflexivity.
Defined.

(** ** Saving, once more *)

(** X8: [save_report_to_pdf] touches two paths and no other, however it
    ends: the Markdown file and the PDF of the base path it is given. *)
Theorem report_touches_two_paths_only w text base st p :
  p <> base +:+ ".md" ->
  p <> base +:+ ".pdf" ->
  fs (save_report_to_pdf w text base st).1 !! p = fs st !! p.
Proof.
  intros Hmd Hpdf.
  destruct (open_for_writing (fs st) (base +:+ ".md")) as [e|] eqn:Hw.
  { by rewrite (save_not_writable _ _ _ _ _ Hw). }
  destruct (pandoc w text) as [code secs|why|] eqn:Hp.
  - destruct (decide (code = 0)) as [->|Hcode].
    + rewrite (save_converted _ _ _ _ _ Hw Hp). simpl.
      by rewrite lookup_delete_ne, !lookup_insert_ne.
    + rewrite (save_conversion_failed _ _ _ _ _ _ Hw Hp Hcode). simpl.
      by rewrite lookup_insert_ne.
  - rewrite (save_converter_missing _ _ _ _ _ Hw Hp). simpl.
    by rewrite lookup_insert_ne.
  - rewrite (save_converter_forever _ _ _ _ Hw Hp). simpl.
    by rewrite lookup_insert_ne.
Qed.

Lemma report_touches_two_paths_only_witness :
  fs (save_report_to_pdf Kali.healthy "# Report"
        "/home/kali/Desktop/gemini_report" Kali.boot).1
    !! "/home/kali/nuclei-templates"
  = fs Kali.boot !! "/home/kali/nuclei-templates".
Proof.
  apply (report_touches_two_paths_only Kali.healthy "# Report"
           "/home/kali/Desktop/gemini_report" Kali.boot);
    discriminate.
Defined.

(** X9: the PDF changes only when the converter exits with status 0.
    After any other end of the conversion, whatever was at the PDF path
    is still there: the PDF of an earlier run stays, next to the Markdown
    file of this one. *)
Theorem old_pdf_survives_a_failed_conversion w text base st :
  (forall secs, pandoc w text <> Exits 0 secs) ->
  fs (save_report_to_pdf w text base st).1 !! (base +:+ ".pdf")
  = fs st !! (base +:+ ".pdf").
Proof.
  intros Hbad.
  destruct (open_for_writing (fs st) (base +:+ ".md")) as [e|] eqn:Hw.
  { by rewrite (save_not_writable _ _ _ _ _ Hw). }
  destruct (pandoc w text) as [code secs|why|] eqn:Hp.
  - destruct (decide (code = 0)) as [->|Hcode]; [by destruct (Hbad secs)|].
    rewrite (save_conversion_failed _ _ _ _ _ _ Hw Hp Hcode). simpl.
    apply lookup_insert_ne, md_is_not_pdf.
  - rewrite (save_converter_missing _ _ _ _ _ Hw Hp). simpl.
    apply lookup_insert_ne, md_is_not_pdf.
  - rewrite (save_converter_forever _ _ _ _ Hw Hp). simpl.
    apply lookup_insert_ne, md_is_not_pdf.
Qed.

Lemma old_pdf_survives_a_failed_conversion_witness :
  fs (save_report_to_pdf broken_pandoc "# Report"
        "/home/kali/Desktop/gemini_report" old_report).1
    !! "/home/kali/Desktop/gemini_report.pdf"
  = Some (File "%PDF-1.5 old").
Proof.
  refine (eq_trans
            (old_pdf_survives_a_failed_conversion broken_pandoc "# Report"
               "/home/kali/Desktop/gemini_report" old_report _) _).
  - intros secs. discriminate.
  - reflexivity.
Defined.

(** ** The whole run, once more *)

Lemma scanned_file w target st content :
  scan_text w target = Some content ->
  file_text (fs (scanned w target st)) (output_file w) = Some content.
Proof.
  unfold scan_text, file_text, scanned, scan_effect. simpl.
  destruct (nuclei_output w target) as [bytes|]; [|done].
  intros H. by rewrite lookup_insert_eq.
Qed.

Lemma calls_summarized w target st content :
  calls (summarized w target st content)
  = calls st ++ [version_probe; scan_call w target;
                 GenerateContent (prompt_of content)].
Proof. unfold summarized, scanned, after_setup. simpl. by rewrite <- !app_assoc. Qed.

(** A run whose summary has no [Error] in it goes on to save it. *)
Lemma main_summarized w target st secs content text :
  setup_ok w st = true ->
  nuclei_scan w target (count is_scan st) = Exits 0 secs ->
  scan_text w target = Some content ->
  answer w (prompt_of content) = inr text ->
  Str.contains "Error" text = false ->
  main w target st
  = save_report_to_pdf w (Str.strip text) (REPORT_PATH w)
      (summarized w target st content).
Proof.
  intros Hok Hscan Hout Hans Herr.
  rewrite (main_after_scan _ _ _ _ Hok Hscan).
  rewrite (bind_return _ _ _ _ _
             (report_generated _ _ _ _ _ (scanned_file _ _ st _ Hout) Hans)).
  by rewrite contains_error_strip, Herr.
Qed.

(** X11: a run in which every step works and the scan file can be read
    as text.  The four collaborators are called once each, in the order
    probe, scan, model, converter; the prompt is built around the text of
    what the scanner wrote; the PDF made of the stripped answer is at the
    report path, the Markdown file is gone, and the last line printed
    names the PDF. *)
Theorem a_run_that_works w target st secs content text secs' :
  setup_ok w st = true ->
  nuclei_scan w target (count is_scan st) = Exits 0 secs ->
  scan_text w target = Some content ->
  answer w (prompt_of content) = inr text ->
  Str.contains "Error" text = false ->
  open_for_writing (fs (scanned w target st)) (REPORT_PATH w +:+ ".md") = None ->
  pandoc w (Str.strip text) = Exits 0 secs' ->
  exists st',
    main w target st = (st', Return tt)
    /\ calls st' = calls st ++ pipeline w target (prompt_of content)
    /\ fs st' !! (REPORT_PATH w +:+ ".pdf")
       = Some (File (pandoc_pdf w (Str.strip text)))
    /\ fs st' !! (REPORT_PATH w +:+ ".md") = None
    /\ last (stdout st')
       = Some ("✅ PDF report saved at: " +:+ REPORT_PATH w +:+ ".pdf").
Proof.
  intros Hok Hscan Hout Hans Herr Hw Hp.
  rewrite (main_summarized _ _ _ _ _ _ Hok Hscan Hout Hans Herr).
  rewrite (save_converted _ _ _ (summarized w target st content) _ Hw Hp).
  eexists. split; [reflexivity|]. cbn [calls fs stdout]. repeat split.
  - rewrite calls_summarized, <- !app_assoc. reflexivity.
  - rewrite lookup_delete_ne by apply md_is_not_pdf. apply lookup_insert_eq.
  - apply lookup_delete_eq.
  - by rewrite !last_app.
Qed.

Lemma a_run_that_works_witness :
  exists st',
    main Kali.healthy "https://a.test" Kali.boot = (st', Return tt)
    /\ calls st' = calls Kali.boot
                   ++ pipeline Kali.healthy "https://a.test" (prompt_of Kali.findings)
    /\ fs st' !! (REPORT_PATH Kali.healthy +:+ ".pdf")
       = Some (File (pandoc_pdf Kali.healthy (Str.strip Kali.report)))
    /\ fs st' !! (REPORT_PATH Kali.healthy +:+ ".md") = None
    /\ last (stdout st')
       = Some ("✅ PDF report saved at: " +:+ REPORT_PATH Kali.healthy +:+ ".pdf").
Proof.
  apply (a_run_that_works Kali.healthy "https://a.test" Kali.boot 30
           Kali.findings Kali.report 2);
    reflexivity.
Defined.

(** X10: nothing looks at the report path before the summary is made.
    When the Markdown file cannot be written (no such directory, or a
    directory of that name), the scan has run, its file has been read as
    text and the remote model has been called by then; the exception is
    not caught, the run ends with exit status 1, the converter is not
    started, and the files are as the scan left them. *)
Theorem report_path_is_checked_last w target st secs content text e :
  setup_ok w st = true ->
  nuclei_scan w target (count is_scan st) = Exits 0 secs ->
  scan_text w target = Some content ->
  answer w (prompt_of content) = inr text ->
  Str.contains "Error" text = false ->
  open_for_writing (fs (scanned w target st)) (REPORT_PATH w +:+ ".md") = Some e ->
  exists st',
    main w target st = (st', Raise e)
    /\ exit_status (main w target st).2 = Some 1
    /\ calls st' = calls st ++ [version_probe; scan_call w target;
                                GenerateContent (prompt_of content)]
    /\ fs st' = fs (scanned w target st).
Proof.
  intros Hok Hscan Hout Hans Herr Hw.
  rewrite (main_summarized _ _ _ _ _ _ Hok Hscan Hout Hans Herr).
  rewrite (save_not_writable _ _ _ (summarized w target st content) _ Hw).
  eexists. split; [reflexivity|]. cbn [calls fs stdout snd]. repeat split.
  apply calls_summarized.
Qed.

Lemma report_path_is_checked_last_witness :
  exists st',
    main Kali.healthy "https://a.test" no_desktop
      = (st', Raise (enoent "/home/kali/Desktop/gemini_report.md"))
    /\ exit_status (main Kali.healthy "https://a.test" no_desktop).2 = Some 1
    /\ calls st' = calls no_desktop
                   ++ [version_probe; scan_call Kali.healthy "https://a.test";
                       GenerateContent (prompt_of Kali.findings)]
    /\ fs st' = fs (scanned Kali.healthy "https://a.test" no_desktop).
Proof.
  apply (report_path_is_checked_last Kali.healthy "https://a.test" no_desktop 30
           Kali.findings Kali.report);
    reflexivity.
Defined.

(** X13: a scan that exits with status 0 and leaves no file that can be
    read costs no call to the remote model.  The run prints the text of
    the read error, starts nothing after the scan, changes no file, and
    ends normally. *)
Theorem unreadable_scan_file_spares_the_model w target st secs e :
  setup_ok w st = true ->
  nuclei_scan w target (count is_scan st) = Exits 0 secs ->
  read_error w (fs (scanned w target st)) (output_file w) = Some e ->
  main w target st
  = (State (fs (scanned w target st))
       (stdout (scanned w target st)
          ++ [report_banner; "Error reading file: " +:+ str e])
       (calls st ++ [version_probe; scan_call w target]),
     Return tt).
Proof.
  intros Hok Hscan Hread.
  rewrite (main_after_scan _ _ _ _ Hok Hscan).
  rewrite (bind_return _ _ _ _ _ (report_unreadable _ _ _ _ Hread)).
  rewrite (startswith_contains "Error" ("Error reading file: " +:+ str e))
    by apply (startswith_app "Error" (" reading file: " +:+ str e)).
  unfold print. cbn [calls fs stdout]. f_equal. f_equal.
  - by rewrite <- app_assoc.
  - unfold scanned, after_setup. cbn [calls]. by rewrite <- app_assoc.
Qed.

Lemma unreadable_scan_file_spares_the_model_witness :
  main silent_scanner "https://a.test" Kali.boot
  = (State (fs (scanned silent_scanner "https://a.test" Kali.boot))
       (stdout (scanned silent_scanner "https://a.test" Kali.boot)
          ++ [report_banner;
              "Error reading file: [Errno 2] No such file or directory: 'nuclei_scans/scan_20240101_120000.json'"])
       (calls Kali.boot
          ++ [version_probe; scan_call silent_scanner "https://a.test"]),
     Return tt).
Proof.
  apply (unreadable_scan_file_spares_the_model silent_scanner "https://a.test"
           Kali.boot 30
           (enoent "nuclei_scans/scan_20240101_120000.json"));
    reflexivity.
Defined.

(** X14: a conversion that fails after the report was written, in a run
    whose scan file could be read as text.  When the converter exits with
    a non-zero status the run still ends with exit status 0; only when
    the converter cannot be started does it end with 1.  Either way the
    Markdown file holds the report and the PDF path holds what it held
    before. *)
Theorem failed_conversion_and_the_exit_status w target st secs content text :
  setup_ok w st = true ->
  nuclei_scan w target (count is_scan st) = Exits 0 secs ->
  scan_text w target = Some content ->
  answer w (prompt_of content) = inr text ->
  Str.contains "Error" text = false ->
  open_for_writing (fs (scanned w target st)) (REPORT_PATH w +:+ ".md") = None ->
  fails (pandoc w (Str.strip text)) = true ->
  exit_status (main w target st).2
    = Some (match pandoc w (Str.strip text) with NotStarted _ => 1 | _ => 0 end)
  /\ fs (main w target st).1 !! (REPORT_PATH w +:+ ".md")
     = Some (File (Str.strip text))
  /\ fs (main w target st).1 !! (REPORT_PATH w +:+ ".pdf")
     = fs (scanned w target st) !! (REPORT_PATH w +:+ ".pdf").
Proof.
  intros Hok Hscan Hout Hans Herr Hw Hfail.
  rewrite (main_summarized _ _ _ _ _ _ Hok Hscan Hout Hans Herr).
  destruct (pandoc w (Str.strip text)) as [code secs'|why|] eqn:Hp; [| |done].
  - assert (code <> 0) as Hcode by (by intros ->).
    rewrite (save_conversion_failed _ _ _ (summarized w target st content)
               _ _ Hw Hp Hcode).
    cbn [fst snd fs exit_status]. repeat split.
    + apply lookup_insert_eq.
    + apply lookup_insert_ne, md_is_not_pdf.
  - rewrite (save_converter_missing _ _ _ (summarized w target st content)
               _ Hw Hp).
    cbn [fst snd fs exit_status]. repeat split.
    + apply lookup_insert_eq.
    + apply lookup_insert_ne, md_is_not_pdf.
Qed.

Lemma failed_conversion_and_the_exit_status_witness :
  exit_status (main broken_pandoc "https://a.test" Kali.boot).2 = Some 0
  /\ exit_status (main no_pandoc "https://a.test" Kali.boot).2 = Some 1.
Proof.
  split.
  - apply (failed_conversion_and_the_exit_status broken_pandoc "https://a.test"
             Kali.boot 30 Kali.findings Kali.report);
      reflexivity.
  - apply (failed_conversion_and_the_exit_status no_pandoc "https://a.test"
             Kali.boot 30 Kali.findings Kali.report);
      reflexivity.
Defined.

(** ** The order of the calls *)

Lemma verify_setup_calls w st :
  calls (verify_setup w st).1 = calls st ++ [version_probe].
Proof.
  unfold verify_setup, subprocess_run, path_exists, makedirs. step_monad.
  destruct (nuclei_version w) as [code secs|why|]; simpl; try done.
  destruct (code =? 0); simpl; [|done].
  destruct (fs st !! TEMPLATES_DIR w) as [n|]; simpl; [|done].
  by destruct (fs st !! OUTPUT_DIR) as [[c|]|].
Qed.

Lemma run_nuclei_scan_calls w target st :
  calls (run_nuclei_scan w target st).1 = calls st ++ [scan_call w target].
Proof.
  destruct (nuclei_scan w target (count is_scan st)) as [code secs|why|] eqn:H.
  - destruct (decide (code = 0)) as [->|Hcode].
    + by rewrite (run_nuclei_scan_ok _ _ _ _ H).
    + by rewrite (run_nuclei_scan_failed _ _ _ _ _ H Hcode).
  - by rewrite (run_nuclei_scan_not_started _ _ _ _ H).
  - by rewrite (run_nuclei_scan_forever _ _ _ H).
Qed.

Lemma save_report_calls w text base st :
  calls (save_report_to_pdf w text base st).1 = calls st
  \/ calls (save_report_to_pdf w text base st).1 = calls st ++ [convert_call base].
Proof.
  destruct (open_for_writing (fs st) (base +:+ ".md")) as [e|] eqn:Hw.
  { left. by rewrite (save_not_writable _ _ _ _ _ Hw). }
  right. destruct (pandoc w text) as [code secs|why|] eqn:Hp.
  - destruct (decide (code = 0)) as [->|Hcode].
    + by rewrite (save_converted _ _ _ _ _ Hw Hp).
    + by rewrite (save_conversion_failed _ _ _ _ _ _ Hw Hp Hcode).
  - by rewrite (save_converter_missing _ _ _ _ _ Hw Hp).
  - by rewrite (save_converter_forever _ _ _ _ Hw Hp).
Qed.

(** The summary is made with one call to the model, or with none, and
    then it is the text of a read error. *)
Lemma generate_report_cases w p st :
  exists out report,
    (generate_report_from_file w p st
       = (State (fs st) out (calls st), Return report)
     /\ Str.contains "Error" report = true)
    \/ (exists prompt,
          generate_report_from_file w p st
          = (State (fs st) out (calls st ++ [GenerateContent prompt]),
             Return report)).
Proof.
  destruct (read_error w (fs st) p) as [e|] eqn:Hread.
  - rewrite (report_unreadable _ _ _ _ Hread).
    eexists _, _. left. split; [done|].
    apply startswith_contains.
    apply (startswith_app "Error" (" reading file: " +:+ str e)).
  - destruct (read_error_None _ _ _ Hread) as [content Hp].
    destruct (answer w (prompt_of content)) as [e|text] eqn:Hg.
    + destruct (report_model_failed _ _ _ _ _ Hp Hg) as [out ->].
      eexists _, _. right. by eexists.
    + rewrite (report_generated _ _ _ _ _ Hp Hg).
      eexists _, _. right. by eexists.
Qed.

(** X12: in every run, however it ends, the calls made are a first part
    of the same line: the version probe, then the scan, then one prompt
    to the remote model, then the converter.  No collaborator is called
    twice, the model is not called before the scan has worked, and the
    converter is not started before the model has answered. *)
Theorem calls_follow_the_pipeline w target st :
  exists l prompt,
    calls (main w target st).1 = calls st ++ l
    /\ l `prefix_of` pipeline w target prompt
    /\ l <> [].
Proof.
  unfold main, bind.
  pose proof (verify_setup_calls w st) as H1.
  destruct (verify_setup w st) as [st1 o1]. simpl in H1.
  assert ([version_probe] `prefix_of` pipeline w target EmptyString) as P1
    by (by eexists).
  destruct o1 as [[]|e|code|]; try (by exists [version_probe], EmptyString).
  pose proof (run_nuclei_scan_calls w target st1) as H2.
  destruct (run_nuclei_scan w target st1) as [st2 o2]. simpl in H2.
  rewrite H1, <- app_assoc in H2.
  assert ([version_probe; scan_call w target]
            `prefix_of` pipeline w target EmptyString) as P2 by (by eexists).
  destruct o2 as [scan_file|e|code|];
    try (by exists [version_probe; scan_call w target], EmptyString).
  destruct (generate_report_cases w scan_file st2)
    as (out & report_md & [[-> Herr]|[prompt ->]]).
  - rewrite Herr. simpl.
    by exists [version_probe; scan_call w target], EmptyString.
  - assert ([version_probe; scan_call w target; GenerateContent prompt]
              `prefix_of` pipeline w target prompt) as P3 by (by eexists).
    destruct (Str.contains "Error" report_md).
    + simpl. rewrite H2, <- app_assoc.
      by exists [version_probe; scan_call w target; GenerateContent prompt], prompt.
    + destruct (save_report_calls w report_md (REPORT_PATH w)
                  (State (fs st2) out (calls st2 ++ [GenerateContent prompt])))
        as [->| ->]; simpl; rewrite H2, <- !app_assoc.
      * by exists [version_probe; scan_call w target; GenerateContent prompt],
          prompt.
      * exists (pipeline w target prompt), prompt.
        repeat split; [by exists []|done].
Qed.

(** ** How the steps end *)

(** X15: [run_nuclei_scan] returns exactly when the scanner exits with
    status 0, and what it returns is the path made from the time stamp.
    Of the failures it handles only the non-zero status: it prints that
    the scan failed and calls [exit(1)].  A scanner that cannot be started
    is an exception for the caller, with no line printed about it.
    Neither failure changes a file. *)
Theorem scan_returns_exactly_on_status_zero w target st :
  ((exists path, (run_nuclei_scan w target st).2 = Return path)
   <-> exists secs, nuclei_scan w target (count is_scan st) = Exits 0 secs)
  /\ (forall path, (run_nuclei_scan w target st).2 = Return path ->
        path = output_file w)
  /\ (fails (nuclei_scan w target (count is_scan st)) = true ->
      (run_nuclei_scan w target st).2
        = match nuclei_scan w target (count is_scan st) with
          | NotStarted why => Raise (Exn OSError why)
          | _ => SystemExit 1
          end
      /\ last (stdout (run_nuclei_scan w target st).1)
         = Some match nuclei_scan w target (count is_scan st) with
                | NotStarted _ => scan_banner target
                | _ => "❌ Scan failed. Check internet or target URL format (http:// or https://)"
                end
      /\ fs (run_nuclei_scan w target st).1 = fs st).
Proof.
  destruct (nuclei_scan w target (count is_scan st)) as [code secs|why|] eqn:H.
  - destruct (decide (code = 0)) as [->|Hcode].
    + rewrite (run_nuclei_scan_ok _ _ _ _ H). cbn [fst snd fs stdout].
      split; [split; eauto|]. split; [by intros path [= <-]|done].
    + rewrite (run_nuclei_scan_failed _ _ _ _ _ H Hcode). cbn [fst snd fs stdout].
      split; [split; [by intros [? ?]|by intros [secs' [= ? ?]]]|].
      split; [done|]. intros _. by rewrite last_app.
  - rewrite (run_nuclei_scan_not_started _ _ _ _ H). cbn [fst snd fs stdout].
    split; [split; [by intros [? ?]|by intros [? ?]]|].
    split; [done|]. intros _. by rewrite last_app.
  - rewrite (run_nuclei_scan_forever _ _ _ H). cbn [fst snd fs stdout].
    split; [split; [by intros [? ?]|by intros [? ?]]|]. done.
Qed.

Lemma scan_returns_exactly_on_status_zero_witness :
  ((run_nuclei_scan flaky_scanner "https://a.test" Kali.boot).2 = SystemExit 1
   /\ last (stdout (run_nuclei_scan flaky_scanner "https://a.test" Kali.boot).1)
      = Some "❌ Scan failed. Check internet or target URL format (http:// or https://)"
   /\ fs (run_nuclei_scan flaky_scanner "https://a.test" Kali.boot).1 = fs Kali.boot)
  /\ ((run_nuclei_scan vanished_scanner "https://a.test" Kali.boot).2
      = Raise (Exn OSError "[Errno 2] No such file or directory: 'nuclei'")
      /\ last (stdout (run_nuclei_scan vanished_scanner "https://a.test" Kali.boot).1)
         = Some (scan_banner "https://a.test")
      /\ fs (run_nuclei_scan vanished_scanner "https://a.test" Kali.boot).1
         = fs Kali.boot).
Proof.
  destruct (scan_returns_exactly_on_status_zero flaky_scanner "https://a.test"
              Kali.boot) as (_ & _ & Hflaky).
  destruct (scan_returns_exactly_on_status_zero vanished_scanner "https://a.test"
              Kali.boot) as (_ & _ & Hgone).
  split; [apply Hflaky|apply Hgone]; reflexivity.
Defined.

(** X16: the scanner is not the only process the run waits for without
    end.  A version probe that never comes back leaves the run hanging
    in the startup check, with nothing but the probe started; after a
    scan whose file could be read as text, a converter that never exits
    leaves it hanging after the Markdown file has been written. *)
Theorem probe_and_converter_can_hang_the_run w target st :
  (nuclei_version w = Forever ->
   (main w target st).2 = Hang
   /\ calls (main w target st).1 = calls st ++ [version_probe]
   /\ fs (main w target st).1 = fs st)
  /\ (forall secs content text,
        setup_ok w st = true ->
        nuclei_scan w target (count is_scan st) = Exits 0 secs ->
        scan_text w target = Some content ->
        answer w (prompt_of content) = inr text ->
        Str.contains "Error" text = false ->
        open_for_writing (fs (scanned w target st)) (REPORT_PATH w +:+ ".md")
          = None ->
        pandoc w (Str.strip text) = Forever ->
        (main w target st).2 = Hang
        /\ fs (main w target st).1 !! (REPORT_PATH w +:+ ".md")
           = Some (File (Str.strip text))).
Proof.
  split.
  - intros Hv.
    assert (verify_setup w st
            = (State (fs st)
                 (stdout st ++ ["📦 Verifying Nuclei and template setup..."])
                 (calls st ++ [version_probe]), Hang)) as E.
    { unfold verify_setup, subprocess_run. step_monad. by rewrite Hv. }
    unfold main. by rewrite (bind_hang _ _ _ _ E).
  - intros secs content text Hok Hscan Hout Hans Herr Hw Hp.
    rewrite (main_summarized _ _ _ _ _ _ Hok Hscan Hout Hans Herr).
    rewrite (save_converter_forever _ _ _ (summarized w target st content) Hw Hp).
    split; [done|]. apply lookup_insert_eq.
Qed.

Lemma probe_and_converter_can_hang_the_run_witness :
  ((main hung_probe "https://a.test" Kali.boot).2 = Hang
   /\ calls (main hung_probe "https://a.test" Kali.boot).1
      = calls Kali.boot ++ [version_probe]
   /\ fs (main hung_probe "https://a.test" Kali.boot).1 = fs Kali.boot)
  /\ ((main hung_pandoc "https://a.test" Kali.boot).2 = Hang
      /\ fs (main hung_pandoc "https://a.test" Kali.boot).1
           !! (REPORT_PATH hung_pandoc +:+ ".md")
         = Some (File (Str.strip Kali.report))).
Proof.
  destruct (probe_and_converter_can_hang_the_run hung_probe "https://a.test"
              Kali.boot) as [Hprobe _].
  destruct (probe_and_converter_can_hang_the_run hung_pandoc "https://a.test"
              Kali.boot) as [_ Hpandoc].
  split.
  - apply Hprobe. reflexivity.
  - apply (Hpandoc 30 Kali.findings Kali.report); reflexivity.
Defined.

(** X17: when the scan file can be read as text, the script prints that
    the analysis is complete as soon as the call to the model returns,
    before it reads the text of the response.  When the response has no
    text and reading it raises, the line is already printed, and what
    comes back is the error text all the same. *)
Theorem complete_is_printed_before_the_text_is_read w p st content e :
  file_text (fs st) p = Some content ->
  gemini w (prompt_of content) = inr (NoText e) ->
  generate_report_from_file w p st
  = (State (fs st)
       (stdout st ++ [report_banner; "✅ Gemini analysis complete." +:+ nl])
       (calls st ++ [GenerateContent (prompt_of content)]),
     Return ("Error communicating with Gemini: " +:+ str e)).
Proof.
  intros Hp Hg. unfold file_text in Hp.
  unfold generate_report_from_file, read_file, generate_content, response_text.
  step_monad. destruct (fs st !! p) as [[bytes|]|]; try done.
  rewrite Hp. simpl. rewrite Hg. simpl. by rewrite <- !app_assoc.
Qed.

Lemma complete_is_printed_before_the_text_is_read_witness :
  generate_report_from_file blocked_response
    "nuclei_scans/scan_20240101_120000.json" empty_scan
  = (State (fs empty_scan)
       (stdout empty_scan ++ [report_banner; "✅ Gemini analysis complete." +:+ nl])
       (calls empty_scan ++ [GenerateContent (prompt_of EmptyString)]),
     Return "Error communicating with Gemini: response has no valid part").
Proof.
  apply (complete_is_printed_before_the_text_is_read blocked_response
           "nuclei_scans/scan_20240101_120000.json" empty_scan EmptyString
           (Exn OtherException "response has no valid part"));
    reflexivity.
Defined.
